(** * golio: the Riot API request engine and the match stream

    A shallow embedding of [riot/riot_api.go] (request engine, decoding
    layer, [GetMatchesByAccountStream]) and of the match client
    ([List], [ListStream]).

    Conventions.
    - Go [int] and [int64] are 64-bit two's-complement numbers: a [Z]
      with the wrap-around written out ([wrap64]).
    - A Go pointer that may be [nil] is an [option].
    - A Go [error] value is an element of [error]; a [(v, err)] result
      pair is a sum [V + error] when the code returns a zero [v] with
      every non-nil [err].
    - Everything the engine calls outside the repository sources
      (the transport, [http.NewRequest], [strconv.Atoi], the JSON
      decoder, the format constants and the status table of package
      [api]) is a field of [Externals]; every theorem holds for all of
      them.
    - The engine's calls to the outside world are recorded, in order, in
      the [trace] of the [World].
    - Logging is left out: the logger is written to and never read. *)

From Stdlib Require Import ZArith Ascii String List Lia Bool.
From stdpp Require Import base option list gmap strings pretty.

Local Open Scope string_scope.
Local Open Scope list_scope.
Local Open Scope Z_scope.

(** ** Data model *)

Module api.

(** [api.Error], as the tests build it:
    [api.Error{Message: ..., StatusCode: ...}]. *)
Record Error := { Message : string; StatusCode : Z }.

End api.

(** Go's [error] interface, by the dynamic types that reach this code. *)
Inductive error :=
| ApiError (e : api.Error)        (* an api.Error value *)
| EOF                             (* io.EOF *)
| ExternalError (text : string).  (* an error made by a collaborator *)

Module http.

Abbreviation Header := (gmap string (list string)).

(** [textproto.validHeaderFieldByte]: the token characters of a
    header field name. *)
Definition validHeaderFieldByte (a : ascii) : bool :=
  let n := Z.of_N (Ascii.N_of_ascii a) in
  (n =? 33) || ((35 <=? n) && (n <=? 39)) || (n =? 42) || (n =? 43)
  || (n =? 45) || (n =? 46) || ((48 <=? n) && (n <=? 57))
  || ((65 <=? n) && (n <=? 90)) || ((94 <=? n) && (n <=? 122))
  || (n =? 124) || (n =? 126).

Definition toUpper (a : ascii) : ascii :=
  let n := Ascii.N_of_ascii a in
  if ((97 <=? n) && (n <=? 122))%N then Ascii.ascii_of_N (n - 32) else a.

Definition toLower (a : ascii) : ascii :=
  let n := Ascii.N_of_ascii a in
  if ((65 <=? n) && (n <=? 90))%N then Ascii.ascii_of_N (n + 32) else a.

(** The case rewriting of [textproto.canonicalMIMEHeaderKey]: upper
    case at the start and after every hyphen, lower case elsewhere. *)
Fixpoint canonicalCase (upper : bool) (s : string) : string :=
  match s with
  | EmptyString => EmptyString
  | String a s' =>
      let a' := if upper then toUpper a else toLower a in
      String a' (canonicalCase (Ascii.eqb a' "-") s')
  end.

(** [textproto.CanonicalMIMEHeaderKey]: a key with a byte that is not
    a token character is returned as it is. *)
Definition CanonicalMIMEHeaderKey (s : string) : string :=
  if forallb validHeaderFieldByte (list_ascii_of_string s)
  then canonicalCase true s
  else s.

(** [Header.Get]: the first value under the canonical form of the key,
    or the empty string. *)
Definition Get (h : Header) (key : string) : string :=
  match h !! CanonicalMIMEHeaderKey key with
  | Some (v :: _) => v
  | _ => ""
  end.

(** [Header.Add]: appends to the values under the canonical form of
    the key. *)
Definition Add (key value : string) (h : Header) : Header :=
  <[CanonicalMIMEHeaderKey key :=
      default [] (h !! CanonicalMIMEHeaderKey key) ++ [value]]> h.

Record Request := {
  Method : string;
  URL : string;
  ReqHeader : Header;
  ReqBody : option string   (* io.Reader, nil when there is no body *)
}.

Record Response := {
  StatusCode : Z;
  RespHeader : Header;
  Body : string
}.

Definition StatusNotFound : Z := 404.
Definition StatusTooManyRequests : Z := 429.
Definition StatusServiceUnavailable : Z := 503.

End http.

Module time.

(** [time.Duration] is an [int64] count of nanoseconds. *)
Definition Second : Z := 1000000000.

End time.

(** Wrap-around of a 64-bit signed integer. *)
Definition wrap64 (z : Z) : Z := (z + 2 ^ 63) mod 2 ^ 64 - 2 ^ 63.

Definition maxInt : Z := 2 ^ 63 - 1.

(** [type Client struct { logger; Region; apiKey; client }]: the
    transport handle [client] is stateful and lives in the [World]. *)
Record Client := { Region : string; apiKey : string }.

(** Calls to the outside world, in the order the engine makes them. *)
Inductive Event :=
| CallNewRequest (method url : string) (body : option string)
| CallDo (request : http.Request)
| CallSleep (d : Z).

Record World (T : Type) := { doer : T; trace : list Event }.
Arguments doer {T} _.
Arguments trace {T} _.

(** A computation that may still be running when the fuel is spent. *)
Inductive Run (A : Type) :=
| Ret (a : A)
| Pending.
Arguments Ret {A} _.
Arguments Pending {A}.

(** [MatchFilter]: begin and end index are [*int]; the remaining
    optional fields (queue, season, champion, date range) are kept
    together in [others]. *)
Record MatchFilter (FO : Type) := {
  BeginIndex : option Z;
  EndIndex : option Z;
  others : FO
}.
Arguments BeginIndex {FO} _.
Arguments EndIndex {FO} _.
Arguments others {FO} _.

(** [Matchlist]: only the field [Matches] is read. Its elements are
    values in [riot_api.go] ([*m = match]) and pointers in the match
    client ([MatchStreamValue{MatchReference: match}]). *)
Record Matchlist (E : Type) := { Matches : list E }.
Arguments Matches {E} _.

(** [type MatchStreamValue struct { *MatchReference; Error error }] *)
Record MatchStreamValue (MR : Type) := {
  MatchReference : option MR;
  Error : option error
}.
Arguments MatchReference {MR} _.
Arguments Error {MR} _.

(** ** Collaborators *)

Record Externals (T MR FO : Type) := {
  (** [internal.Doer]: [Do(request) (response, error)], on the
      transport's state. *)
  Do : http.Request -> T -> (http.Response + error) * T;
  (** [http.NewRequest(method, url, body)], before any header is added. *)
  NewRequest : string -> string -> option string -> http.Request + error;
  (** [strconv.Atoi]. *)
  Atoi : string -> Z + error;
  (** [fmt.Sprintf(apiURLFormat, scheme, region, baseURL, endpoint)]. *)
  apiURL : string -> string -> string;
  apiTokenHeaderKey : string;
  (** [api.StatusToError], a [map[int]Error], and the two errors of
      package [api] that the tests name. *)
  StatusToError : gmap Z api.Error;
  ErrNotFound : api.Error;
  ErrServiceUnavailable : api.Error;
  (** [MatchFilter.GetQueryParams]. *)
  GetQueryParams : MatchFilter FO -> string;
  (** [fmt.Sprintf(endpointGetMatchesByAccount, accountID, queryParams)],
      the format of the match client. *)
  endpointMatchesQuery : string -> string -> string;
  (** [fmt.Sprintf(endpointGetMatchesByAccount, accountID, begin, end)],
      the format of [riot_api.go]. *)
  endpointMatchesRange : string -> Z -> Z -> string;
  (** [json.NewDecoder(body).Decode(&matches)] for
      [matches *Matchlist], in the two layouts of [Matchlist]: the new
      value of the target and the decoder's error. *)
  DecodePtrs : string -> option (Matchlist (option MR)) ->
               option (Matchlist (option MR)) * option error;
  DecodeVals : string -> option (Matchlist MR) ->
               option (Matchlist MR) * option error
}.
Arguments Do {T MR FO} _.
Arguments NewRequest {T MR FO} _.
Arguments Atoi {T MR FO} _.
Arguments apiURL {T MR FO} _.
Arguments apiTokenHeaderKey {T MR FO} _.
Arguments StatusToError {T MR FO} _.
Arguments ErrNotFound {T MR FO} _.
Arguments ErrServiceUnavailable {T MR FO} _.
Arguments GetQueryParams {T MR FO} _.
Arguments endpointMatchesQuery {T MR FO} _.
Arguments endpointMatchesRange {T MR FO} _.
Arguments DecodePtrs {T MR FO} _.
Arguments DecodeVals {T MR FO} _.

(** ** The request engine *)

Section Engine.

Context {T MR FO : Type}.
Variable X : Externals T MR FO.

(** [time.Sleep(d)], recorded with the duration it was called with
    (the runtime returns at once when [d <= 0]). *)
Definition Sleep (d : Z) (w : World T) : World T :=
  {| doer := doer w; trace := trace w ++ [CallSleep d] |}.

(** [c.client.Do(request)] *)
Definition clientDo (request : http.Request) (w : World T)
  : (http.Response + error) * World T :=
  let '(r, t) := Do X request (doer w) in
  (r, {| doer := t; trace := trace w ++ [CallDo request] |}).

(** [func (c Client) newRequest(method, endpoint string, body io.Reader)] *)
Definition newRequest (c : Client) (method endpoint : string)
    (body : option string) (w : World T)
  : (http.Request + error) * World T :=
  let url := apiURL X (Region c) endpoint in
  let w := {| doer := doer w;
              trace := trace w ++ [CallNewRequest method url body] |} in
  match NewRequest X method url body with
  | inr err => (inr err, w)
  | inl request =>
      let h := http.Add (apiTokenHeaderKey X) (apiKey c)
                        (http.ReqHeader request) in
      let h := http.Add "Accept" "application/json" h in
      (inl {| http.Method := http.Method request;
              http.URL := http.URL request;
              http.ReqHeader := h;
              http.ReqBody := http.ReqBody request |}, w)
  end.

(** [err, ok := api.StatusToError[code]; if !ok { err = api.Error{...} }] *)
Definition statusError (code : Z) : api.Error :=
  match StatusToError X !! code with
  | Some err => err
  | None => {| api.Message := "unknown error reason";
               api.StatusCode := code |}
  end.

(** [func (c Client) doRequest(method, endpoint string, body io.Reader)]:
    one unit of fuel per invocation. *)
Fixpoint doRequest (fuel : nat) (c : Client) (method endpoint : string)
    (body : option string) (w : World T)
  : Run (http.Response + error) * World T :=
  match fuel with
  | O => (Pending, w)
  | S fuel' =>
    let '(rq, w) := newRequest c method endpoint body w in
    match rq with
    | inr err => (Ret (inr err), w)
    | inl request =>
      let '(r, w) := clientDo request w in
      match r with
      | inr err => (Ret (inr err), w)
      | inl response =>
        let '(r, w) :=
          if http.StatusCode response =? http.StatusServiceUnavailable
          then clientDo request (Sleep time.Second w)
          else (inl response, w) in
        match r with
        | inr err => (Ret (inr err), w)
        | inl response =>
          if http.StatusCode response =? http.StatusTooManyRequests then
            let retry := http.Get (http.RespHeader response) "Retry-After" in
            match Atoi X retry with
            | inr err => (Ret (inr err), w)
            | inl seconds =>
                let w := Sleep (wrap64 (seconds * time.Second)) w in
                doRequest fuel' c method endpoint body w
            end
          else if (http.StatusCode response <? 200)
                  || (http.StatusCode response >? 299) then
            let err := statusError (http.StatusCode response) in
            (Ret (inr (ApiError err)), w)
          else (Ret (inl response), w)
        end
      end
    end
  end.

(** [func (c Client) get(endpoint string)] *)
Definition get (fuel : nat) (c : Client) (endpoint : string) (w : World T)
  : Run (http.Response + error) * World T :=
  doRequest fuel c "GET" endpoint None w.

(** [func (c Client) getInto(endpoint string, target interface{})]:
    [Decode] is [json.NewDecoder(response.Body).Decode(target)] at the
    type of the target; the result is the target after the call and
    the returned error. *)
Definition getInto {A : Type} (Decode : string -> A -> A * option error)
    (fuel : nat) (c : Client) (endpoint : string) (target : A) (w : World T)
  : Run (A * option error) * World T :=
  let '(r, w) := get fuel c endpoint w in
  match r with
  | Pending => (Pending, w)
  | Ret (inr err) => (Ret (target, Some err), w)
  | Ret (inl response) =>
      match Decode (http.Body response) target with
      | (target, Some err) => (Ret (target, Some err), w)
      | (target, None) => (Ret (target, None), w)
      end
  end.

End Engine.

(** ** The match client and the two match streams *)

(** How the producer goroutine of a stream stands when the fuel of the
    model is spent or the goroutine is over: [Panicked] is the nil
    dereference of [matches.Matches] on a nil [*Matchlist]. *)
Inductive Status := Running | Returned | Panicked.

(** The run of a producer. [sent] is what it sent on the channel, in
    order (the consumer keeps receiving, so the buffer of 100 never
    blocks the producer for good); [calls] is the ghost log of the
    arguments of its page fetches. *)
Record StreamRun (V L W : Type) := {
  sent : list V;
  calls : list L;
  status : Status;
  world : W
}.
Arguments sent {V L W} _.
Arguments calls {V L W} _.
Arguments status {V L W} _.
Arguments world {V L W} _.

Section Streams.

Context {T MR FO : Type}.
Variable X : Externals T MR FO.

(** [MatchStreamValue{MatchReference: m}] and
    [MatchStreamValue{Error: err}] *)
Definition itemValue (m : option MR) : MatchStreamValue MR :=
  {| MatchReference := m; Error := None |}.
Definition errorValue (err : error) : MatchStreamValue MR :=
  {| MatchReference := None; Error := Some err |}.

(** [func (m *matchClient) List(accountID string, filter MatchFilter)] *)
Definition List (rfuel : nat) (c : Client) (accountID : string)
    (filter : MatchFilter FO) (w : World T)
  : Run (option (Matchlist (option MR)) + error) * World T :=
  let queryParams := GetQueryParams X filter in
  let queryParams :=
    if String.eqb queryParams "" then queryParams
    else ("?" ++ queryParams)%string in
  let '(r, w) :=
    getInto X (DecodePtrs X) rfuel c
            (endpointMatchesQuery X accountID queryParams) None w in
  match r with
  | Pending => (Pending, w)
  | Ret (_, Some err) => (Ret (inr err), w)
  | Ret (matches, None) => (Ret (inl matches), w)
  end.

(** The filter as [List] reads it inside the loop of [ListStream]:
    [filter.BeginIndex = &start] and [filter.EndIndex = &end] alias
    the two locals, so the fields hold their current values. *)
Definition pointingAt (filter : MatchFilter FO) (start end_ : Z)
  : MatchFilter FO :=
  {| BeginIndex := Some start; EndIndex := Some end_;
     others := others filter |}.

(** The [for] loop of [ListStream]; one unit of fuel per iteration. *)
Fixpoint ListStream_loop (fuel rfuel : nat) (c : Client)
    (accountID : string) (filter : MatchFilter FO) (start end_ : Z)
    (cMatches : list (MatchStreamValue MR)) (log : list (MatchFilter FO))
    (w : World T)
  : StreamRun (MatchStreamValue MR) (MatchFilter FO) (World T) :=
  match fuel with
  | O => {| sent := cMatches; calls := log; status := Running; world := w |}
  | S fuel' =>
    let filter' := pointingAt filter start end_ in
    let log := log ++ [filter'] in
    let '(r, w) := List rfuel c accountID filter' w in
    match r with
    | Pending =>
        {| sent := cMatches; calls := log; status := Running; world := w |}
    | Ret (inr err) =>
        {| sent := cMatches ++ [errorValue err]; calls := log;
           status := Returned; world := w |}
    | Ret (inl None) =>
        {| sent := cMatches; calls := log; status := Panicked; world := w |}
    | Ret (inl (Some matches)) =>
        let cMatches := cMatches ++ map itemValue (Matches matches) in
        if Z.of_nat (length (Matches matches)) <? 100 then
          {| sent := cMatches ++ [errorValue EOF]; calls := log;
             status := Returned; world := w |}
        else
          ListStream_loop fuel' rfuel c accountID filter
            (wrap64 (start + 100)) (wrap64 (end_ + 100)) cMatches log w
    end
  end.

(** [func (m *matchClient) ListStream(accountID string, filter MatchFilter)] *)
Definition ListStream (fuel rfuel : nat) (c : Client) (accountID : string)
    (filter : MatchFilter FO) (w : World T)
  : StreamRun (MatchStreamValue MR) (MatchFilter FO) (World T) :=
  let start := 0 in
  let end_ := 100 in
  ListStream_loop fuel rfuel c accountID filter start end_ [] [] w.

(** [func (c Client) GetMatchesByAccount(accountID string,
    beginIndex, endIndex int)] *)
Definition GetMatchesByAccount (rfuel : nat) (c : Client)
    (accountID : string) (beginIndex endIndex : Z) (w : World T)
  : Run (option (Matchlist MR) + error) * World T :=
  let '(r, w) :=
    getInto X (DecodeVals X) rfuel c
            (endpointMatchesRange X accountID beginIndex endIndex) None w in
  match r with
  | Pending => (Pending, w)
  | Ret (_, Some err) => (Ret (inr err), w)
  | Ret (matches, None) => (Ret (inl matches), w)
  end.

(** The [for] loop of [GetMatchesByAccountStream]: every item is sent
    through a fresh pointer ([m := new(MatchReference); *m = match]). *)
Fixpoint GetMatchesByAccountStream_loop (fuel rfuel : nat) (c : Client)
    (accountID : string) (start : Z)
    (cMatches : list (MatchStreamValue MR)) (log : list (Z * Z))
    (w : World T)
  : StreamRun (MatchStreamValue MR) (Z * Z) (World T) :=
  match fuel with
  | O => {| sent := cMatches; calls := log; status := Running; world := w |}
  | S fuel' =>
    let log := log ++ [(start, wrap64 (start + 100))] in
    let '(r, w) :=
      GetMatchesByAccount rfuel c accountID start (wrap64 (start + 100)) w in
    match r with
    | Pending =>
        {| sent := cMatches; calls := log; status := Running; world := w |}
    | Ret (inr err) =>
        {| sent := cMatches ++ [errorValue err]; calls := log;
           status := Returned; world := w |}
    | Ret (inl None) =>
        {| sent := cMatches; calls := log; status := Panicked; world := w |}
    | Ret (inl (Some matches)) =>
        let cMatches :=
          cMatches ++ map (fun m => itemValue (Some m)) (Matches matches) in
        if Z.of_nat (length (Matches matches)) <? 100 then
          {| sent := cMatches ++ [errorValue EOF]; calls := log;
             status := Returned; world := w |}
        else
          GetMatchesByAccountStream_loop fuel' rfuel c accountID
            (wrap64 (start + 100)) cMatches log w
    end
  end.

(** [func (c Client) GetMatchesByAccountStream(accountID string)] *)
Definition GetMatchesByAccountStream (fuel rfuel : nat) (c : Client)
    (accountID : string) (w : World T)
  : StreamRun (MatchStreamValue MR) (Z * Z) (World T) :=
  let start := 0 in
  GetMatchesByAccountStream_loop fuel rfuel c accountID start [] [] w.

End Streams.

(** ** Test doubles

    A scripted transport in the manner of the repository's mock doers
    and small stand-ins for the library functions, used to run the
    model on concrete inputs. *)

Module Mock.

(** The transport answers with the next entry of its script. *)
Definition script_Do (request : http.Request)
    (t : list (http.Response + error))
  : (http.Response + error) * list (http.Response + error) :=
  match t with
  | [] => (inr (ExternalError "no response left"), [])
  | r :: t' => (r, t')
  end.

Definition plainRequest (method url : string) (body : option string)
  : http.Request + error :=
  inl {| http.Method := method; http.URL := url;
         http.ReqHeader := ∅; http.ReqBody := body |}.

Definition digit (a : ascii) : option Z :=
  let n := Z.of_N (Ascii.N_of_ascii a) in
  if (48 <=? n) && (n <=? 57) then Some (n - 48) else None.

Fixpoint digits (acc : Z) (s : string) : option Z :=
  match s with
  | EmptyString => Some acc
  | String a s' =>
      match digit a with
      | Some d => digits (acc * 10 + d) s'
      | None => None
      end
  end.

(** Decimal integers of the [int] range with an optional sign, as
    [strconv.Atoi] reads them. *)
Definition decimal (s : string) : Z + error :=
  let neg := match s with String "-" _ => true | _ => false end in
  let ds := match s with
            | String "-" r => r
            | String "+" r => r
            | _ => s
            end in
  match ds, digits 0 ds with
  | EmptyString, _ | _, None =>
      inr (ExternalError "strconv.Atoi: invalid syntax")
  | _, Some n =>
      let v := if neg then - n else n in
      if (- 2 ^ 63 <=? v) && (v <=? maxInt) then inl v
      else inr (ExternalError "strconv.Atoi: value out of range")
  end.

(** A stand-in for the JSON decoder of a match list: the body [null]
    is the nil list, a body starting with [!] is malformed, and any
    other body holds one match per character; with [nullable] the
    character [_] is a null entry. *)
Definition decodePtrs (nullable : bool) (body : string)
    (target : option (Matchlist (option ascii)))
  : option (Matchlist (option ascii)) * option error :=
  if String.eqb body "null" then (None, None)
  else if String.prefix "!" body then
    (target, Some (ExternalError "json: malformed"))
  else
    (Some {| Matches :=
               map (fun a => if nullable && Ascii.eqb a "_" then None
                             else Some a)
                   (list_ascii_of_string body) |}, None).

Definition decodeVals (body : string) (target : option (Matchlist ascii))
  : option (Matchlist ascii) * option error :=
  if String.eqb body "null" then (None, None)
  else if String.prefix "!" body then
    (target, Some (ExternalError "json: malformed"))
  else (Some {| Matches := list_ascii_of_string body |}, None).

(** Modelled from the spec: package [api] is not among the sources;
    the spec's taxonomy maps status 404 to NotFound and status 503 to
    ServiceUnavailable, and the tests expect [api.ErrNotFound] and
    [api.ErrServiceUnavailable] for them. *)
Definition notFound : api.Error :=
  {| api.Message := "not found"; api.StatusCode := 404 |}.
Definition serviceUnavailable : api.Error :=
  {| api.Message := "service unavailable"; api.StatusCode := 503 |}.
Definition statusTable : gmap Z api.Error :=
  {[ 404 := notFound; 503 := serviceUnavailable ]}.

Definition externals (nullable : bool)
  : Externals (list (http.Response + error)) ascii (list Z) :=
  {| Do := script_Do;
     NewRequest := plainRequest;
     Atoi := decimal;
     apiURL := fun region endpoint =>
       ("https://" ++ region ++ ".api.riotgames.com" ++ endpoint)%string;
     apiTokenHeaderKey := "X-Riot-Token";
     StatusToError := statusTable;
     ErrNotFound := notFound;
     ErrServiceUnavailable := serviceUnavailable;
     GetQueryParams := fun f =>
       match BeginIndex f, EndIndex f with
       | Some b, Some e =>
           ("beginIndex=" ++ pretty b ++ "&endIndex=" ++ pretty e)%string
       | _, _ => ""
       end;
     endpointMatchesQuery := fun accountID query =>
       ("/lol/match/v4/matchlists/by-account/" ++ accountID ++ query)%string;
     endpointMatchesRange := fun accountID b e =>
       ("/lol/match/v4/matchlists/by-account/" ++ accountID
          ++ "?beginIndex=" ++ pretty b ++ "&endIndex=" ++ pretty e)%string;
     DecodePtrs := decodePtrs nullable;
     DecodeVals := decodeVals |}.

Definition client : Client := {| Region := "euw1"; apiKey := "API_KEY" |}.

(** A response with a status, a [Retry-After] header and a body. *)
Definition response (code : Z) (retryAfter body : string) : http.Response :=
  {| http.StatusCode := code;
     http.RespHeader := {[ "Retry-After" := [retryAfter] ]};
     http.Body := body |}.

Definition statusOnly (code : Z) : http.Response + error :=
  inl {| http.StatusCode := code; http.RespHeader := ∅; http.Body := "" |}.

Definition start (script : list (http.Response + error))
  : World (list (http.Response + error)) :=
  {| doer := script; trace := [] |}.

Definition ok (body : string) : http.Response :=
  {| http.StatusCode := 200; http.RespHeader := ∅; http.Body := body |}.

(** A body of 100 matches, a body of 3, and the 103 matches of both. *)
Definition fullPage : string :=
  "0123456789012345678901234567890123456789012345678901234567890123456789012345678901234567890123456789".
Definition shortPage : string := "abc".
Definition matches103 : list ascii :=
  list_ascii_of_string (fullPage ++ shortPage)%string.

Definition filter7 : MatchFilter (list Z) :=
  {| BeginIndex := Some 7; EndIndex := None; others := [420] |}.

End Mock.

(** ** Vocabulary of the statements *)

Section Vocabulary.

Context {T MR FO : Type}.
Variable X : Externals T MR FO.

(** [settled request w0 r w']: sending [request] from the world [w0]
    leaves the response [r], in the world [w'], for the status checks
    that follow the unavailability retry: [r] is the first response
    when its status is not 503, and the response of the single retry
    otherwise. *)
Definition settled (request : http.Request) (w0 : World T)
    (r : http.Response) (w' : World T) : Prop :=
  (clientDo X request w0 = (inl r, w') /\ http.StatusCode r <> 503)
  \/ (exists r1 w1,
        clientDo X request w0 = (inl r1, w1)
        /\ http.StatusCode r1 = 503
        /\ clientDo X request (Sleep time.Second w1) = (inl r, w')).

(** [serves fetch all k n w wEnd]: starting in the world [w], the [n]
    page fetches for the windows [[100 k, 100 k + 100)],
    [[100 (k+1), 100 (k+1) + 100)], ... succeed one after the other,
    each with the matches of the account [all] at the positions of its
    window, and leave the world [wEnd]. *)
Fixpoint serves {E : Type}
    (fetch : Z -> Z -> World T ->
             Run (option (Matchlist E) + error) * World T)
    (all : list E) (k n : nat) (w wEnd : World T) : Prop :=
  match n with
  | O => w = wEnd
  | S n' =>
      exists w',
        fetch (100 * Z.of_nat k) (100 * Z.of_nat k + 100) w
        = (Ret (inl (Some {| Matches := take 100 (drop (100 * k) all) |})),
           w')
        /\ serves fetch all (S k) n' w' wEnd
  end.

End Vocabulary.

(** The filter of the [j]-th page fetch of [ListStream], counting from
    0. *)
Definition windowFilter {FO : Type} (filter : MatchFilter FO) (j : nat)
  : MatchFilter FO :=
  pointingAt filter (100 * Z.of_nat j) (100 * Z.of_nat j + 100).

(** The arguments of the [j]-th page fetch of
    [GetMatchesByAccountStream], counting from 0. *)
Definition windowRange (j : nat) : Z * Z :=
  (100 * Z.of_nat j, 100 * Z.of_nat j + 100).


(** Exactly one of the two payload fields is populated. *)
Definition populatedOnce {MR : Type} (v : MatchStreamValue MR) : Prop :=
  (is_Some (MatchReference v) /\ Error v = None)
  \/ (MatchReference v = None /\ is_Some (Error v)).

(** [ceil (n / d)] on natural numbers. *)
Definition ceilDiv (n d : nat) : nat := ((n + d - 1) / d)%nat.

(** ** The remaining operations of the decoding layer and the match
    client *)

Section Operations.

Context {T MR FO : Type}.
Variable X : Externals T MR FO.

(** [func (c Client) post(endpoint string, body interface{})]:
    [Encode] is [json.NewEncoder(buf).Encode(body)] at the type of the
    body, giving the content of the buffer or the encoder's error. *)
Definition post {B : Type} (Encode : B -> string + error)
    (fuel : nat) (c : Client) (endpoint : string) (body : B) (w : World T)
  : Run (http.Response + error) * World T :=
  match Encode body with
  | inr err => (Ret (inr err), w)
  | inl buf => doRequest X fuel c "POST" endpoint (Some buf) w
  end.

(** [func (c Client) postInto(endpoint string, body, target interface{})] *)
Definition postInto {A B : Type} (Encode : B -> string + error)
    (Decode : string -> A -> A * option error)
    (fuel : nat) (c : Client) (endpoint : string) (body : B) (target : A)
    (w : World T)
  : Run (A * option error) * World T :=
  let '(r, w) := post Encode fuel c endpoint body w in
  match r with
  | Pending => (Pending, w)
  | Ret (inr err) => (Ret (target, Some err), w)
  | Ret (inl response) =>
      match Decode (http.Body response) target with
      | (target, Some err) => (Ret (target, Some err), w)
      | (target, None) => (Ret (target, None), w)
      end
  end.

(** [func (c Client) put(endpoint string, body interface{}) error] *)
Definition put {B : Type} (Encode : B -> string + error)
    (fuel : nat) (c : Client) (endpoint : string) (body : B) (w : World T)
  : Run (option error) * World T :=
  match Encode body with
  | inr err => (Ret (Some err), w)
  | inl buf =>
      let '(r, w) := doRequest X fuel c "PUT" endpoint (Some buf) w in
      match r with
      | Pending => (Pending, w)
      | Ret (inr err) => (Ret (Some err), w)
      | Ret (inl _) => (Ret None, w)
      end
  end.

(** [func (m *matchClient) Get(id int)], returning a [*Match], and
    [Client.GetMatch] of [riot_api.go], which has the same body: the
    target is a nil [*Match]. [endpointGetMatch] is
    [fmt.Sprintf(endpointGetMatch, id)]. *)
Definition Get {M : Type} (endpointGetMatch : Z -> string)
    (Decode : string -> option M -> option M * option error)
    (fuel : nat) (c : Client) (id : Z) (w : World T)
  : Run (option M * option error) * World T :=
  let '(r, w) := getInto X Decode fuel c (endpointGetMatch id) None w in
  match r with
  | Pending => (Pending, w)
  | Ret (_, Some err) => (Ret (None, Some err), w)
  | Ret (match_, None) => (Ret (match_, None), w)
  end.

(** [func (m *matchClient) GetTimeline(matchID int)], and [Client.GetMatchTimeline] of [riot_api.go]: the target is a
    [MatchTimeline] value, [zero] at first, and the result its address. *)
Definition GetTimeline {MT : Type} (endpointGetMatchTimeline : Z -> string)
    (Decode : string -> MT -> MT * option error) (zero : MT)
    (fuel : nat) (c : Client) (matchID : Z) (w : World T)
  : Run (option MT * option error) * World T :=
  let '(r, w) :=
    getInto X Decode fuel c (endpointGetMatchTimeline matchID) zero w in
  match r with
  | Pending => (Pending, w)
  | Ret (_, Some err) => (Ret (None, Some err), w)
  | Ret (timeline, None) => (Ret (Some timeline, None), w)
  end.

End Operations.

(** ** Counting the calls of a trace *)

Definition isNewRequest (e : Event) : bool :=
  match e with CallNewRequest _ _ _ => true | _ => false end.
Definition isDo (e : Event) : bool :=
  match e with CallDo _ => true | _ => false end.
Definition isSleep (e : Event) : bool :=
  match e with CallSleep _ => true | _ => false end.

Fixpoint count (p : Event -> bool) (l : list Event) : nat :=
  match l with
  | [] => 0%nat
  | e :: l' => ((if p e then 1 else 0) + count p l')%nat
  end.

(** A page of values seen as the page of pointers to them. *)
Definition pointers {MR : Type} (m : Matchlist MR) : Matchlist (option MR) :=
  {| Matches := map Some (Matches m) |}.

(** The result of [GetMatchesByAccount] seen as a result of [List]. *)
Definition asListResult {MR : Type}
    (r : Run (option (Matchlist MR) + error))
  : Run (option (Matchlist (option MR)) + error) :=
  match r with
  | Pending => Pending
  | Ret (inr err) => Ret (inr err)
  | Ret (inl None) => Ret (inl None)
  | Ret (inl (Some m)) => Ret (inl (Some (pointers m)))
  end.

(** ** More test doubles *)

Module MockMore.

(** A transport without state that answers every request with status
    429 and [Retry-After: 1]. *)
Definition limited_Do (request : http.Request) (t : unit)
  : (http.Response + error) * unit :=
  (inl (Mock.response 429 "1" ""), tt).

Definition alwaysLimited : Externals unit ascii (list Z) :=
  {| Do := limited_Do;
     NewRequest := Mock.plainRequest;
     Atoi := Mock.decimal;
     apiURL := apiURL (Mock.externals false);
     apiTokenHeaderKey := "X-Riot-Token";
     StatusToError := Mock.statusTable;
     ErrNotFound := Mock.notFound;
     ErrServiceUnavailable := Mock.serviceUnavailable;
     GetQueryParams := GetQueryParams (Mock.externals false);
     endpointMatchesQuery := endpointMatchesQuery (Mock.externals false);
     endpointMatchesRange := endpointMatchesRange (Mock.externals false);
     DecodePtrs := Mock.decodePtrs false;
     DecodeVals := Mock.decodeVals |}.

(** A stand-in for the JSON encoder of a string body, which refuses
    the empty string. *)
Definition encodeName (name : string) : string + error :=
  if String.eqb name "" then inr (ExternalError "json: unsupported value")
  else inl name.

(** A stand-in for the JSON decoder of a string target. *)
Definition decodeName (body : string) (target : string)
  : string * option error :=
  if String.prefix "!" body then
    (target, Some (ExternalError "json: malformed"))
  else (body, None).

(** A stand-in for the JSON decoder of a [*Match] target. *)
Definition decodeMatch (body : string) (target : option string)
  : option string * option error :=
  if String.eqb body "null" then (None, None)
  else if String.prefix "!" body then
    (target, Some (ExternalError "json: malformed"))
  else (Some body, None).

Definition endpointGetMatch (id : Z) : string :=
  ("/lol/match/v4/matches/" ++ pretty id)%string.

Definition endpointGetMatchTimeline (id : Z) : string :=
  ("/lol/match/v4/timelines/by-match/" ++ pretty id)%string.

End MockMore.

(** ** The model on small inputs *)

Example Second_in_ns : time.Second = 10 ^ 9.
Proof. reflexivity. Qed.

Example wrap64_wraps : wrap64 (maxInt + 1) = - 2 ^ 63.
Proof. reflexivity. Qed.

Example decimal_reads :
  Mock.decimal "2" = inl 2
  /\ Mock.decimal "-17" = inl (-17)
  /\ Mock.decimal "9223372036854775808"
     = inr (ExternalError "strconv.Atoi: value out of range")
  /\ Mock.decimal "2s" = inr (ExternalError "strconv.Atoi: invalid syntax")
  /\ Mock.decimal "" = inr (ExternalError "strconv.Atoi: invalid syntax").
Proof. repeat split; reflexivity. Qed.

Example canonical_header_keys :
  http.CanonicalMIMEHeaderKey "retry-after" = "Retry-After"
  /\ http.CanonicalMIMEHeaderKey "X-RIOT-TOKEN" = "X-Riot-Token"
  /\ http.CanonicalMIMEHeaderKey "accept" = "Accept"
  /\ http.CanonicalMIMEHeaderKey "not a token" = "not a token".
Proof. repeat split; reflexivity. Qed.

(** A token header key that is [Accept] up to case shares the entry of
    the [Accept] header, and its value comes first. *)
Example token_key_accept :
  http.Get (http.Add "Accept" "application/json" (http.Add "accept" "KEY" ∅))
           "Accept"
  = "KEY".
Proof. reflexivity. Qed.

(** The scenario "not found" of the test tables. *)
Example not_found_scenario :
  fst (doRequest (Mock.externals false) 1 Mock.client "GET" "/x" None
         (Mock.start [Mock.statusOnly 404]))
  = Ret (inr (ApiError Mock.notFound)).
Proof. reflexivity. Qed.

(** A server that keeps answering 429 keeps the call going: after three
    429 responses a call of three invocations is still pending. *)
Example rate_limited_three_times :
  fst (doRequest (Mock.externals false) 3 Mock.client "GET" "/x" None
         (Mock.start [inl (Mock.response 429 "1" "");
                      inl (Mock.response 429 "1" "");
                      inl (Mock.response 429 "1" "")]))
  = Pending.
Proof. reflexivity. Qed.

(** A nil match list (the JSON body [null]) stops the producer of a
    stream on the dereference of [matches.Matches]. *)
Example nil_matchlist_panics :
  status (ListStream (Mock.externals false) 2 1 Mock.client "acc"
            Mock.filter7 (Mock.start [inl (Mock.ok "null")]))
  = Panicked.
Proof. reflexivity. Qed.

(** ** The request engine: theorems *)

Section EngineFacts.

Context {T MR FO : Type}.
Variable X : Externals T MR FO.

Lemma clientDo_trace request (w : World T) r w' :
  clientDo X request w = (r, w') ->
  trace w' = trace w ++ [CallDo request].
Proof.
  unfold clientDo. destruct (Do X request (doer w)) as [r0 t].
  intros [= _ <-]. reflexivity.
Qed.

Lemma newRequest_trace c method endpoint body (w : World T) r w' :
  newRequest X c method endpoint body w = (r, w') ->
  trace w' = trace w ++ [CallNewRequest method (apiURL X (Region c) endpoint) body].
Proof.
  unfold newRequest.
  destruct (NewRequest X method (apiURL X (Region c) endpoint) body);
    intros [= _ <-]; reflexivity.
Qed.

Lemma Sleep_trace d (w : World T) :
  trace (Sleep d w) = trace w ++ [CallSleep d].
Proof. reflexivity. Qed.

(** One invocation, once the request is built and the first response
    is in. *)
Lemma doRequest_first fuel c method endpoint body (w w0 w1 : World T)
    request r1 :
  newRequest X c method endpoint body w = (inl request, w0) ->
  clientDo X request w0 = (inl r1, w1) ->
  http.StatusCode r1 <> 503 ->
  doRequest X (S fuel) c method endpoint body w =
    if http.StatusCode r1 =? 429 then
      match Atoi X (http.Get (http.RespHeader r1) "Retry-After") with
      | inr err => (Ret (inr err), w1)
      | inl seconds =>
          doRequest X fuel c method endpoint body
            (Sleep (wrap64 (seconds * time.Second)) w1)
      end
    else if (http.StatusCode r1 <? 200) || (http.StatusCode r1 >? 299) then
      (Ret (inr (ApiError (statusError X (http.StatusCode r1)))), w1)
    else (Ret (inl r1), w1).
Proof.
  intros Hnew Hdo Hne. cbn [doRequest]. rewrite Hnew, Hdo.
  unfold http.StatusServiceUnavailable, http.StatusTooManyRequests.
  destruct (Z.eqb_spec (http.StatusCode r1) 503) as [|_]; [contradiction|].
  reflexivity.
Qed.

(** One invocation whose first response is a 503. *)
Lemma doRequest_retried fuel c method endpoint body (w w0 w1 w2 : World T)
    request r1 r2 :
  newRequest X c method endpoint body w = (inl request, w0) ->
  clientDo X request w0 = (inl r1, w1) ->
  http.StatusCode r1 = 503 ->
  clientDo X request (Sleep time.Second w1) = (inl r2, w2) ->
  doRequest X (S fuel) c method endpoint body w =
    if http.StatusCode r2 =? 429 then
      match Atoi X (http.Get (http.RespHeader r2) "Retry-After") with
      | inr err => (Ret (inr err), w2)
      | inl seconds =>
          doRequest X fuel c method endpoint body
            (Sleep (wrap64 (seconds * time.Second)) w2)
      end
    else if (http.StatusCode r2 <? 200) || (http.StatusCode r2 >? 299) then
      (Ret (inr (ApiError (statusError X (http.StatusCode r2)))), w2)
    else (Ret (inl r2), w2).
Proof.
  intros Hnew Hdo H503 Hdo2. cbn [doRequest]. rewrite Hnew, Hdo.
  unfold http.StatusServiceUnavailable, http.StatusTooManyRequests.
  rewrite H503. cbn [Z.eqb Pos.eqb]. rewrite Hdo2. reflexivity.
Qed.

(** The same, for the response that the retry policy leaves. *)
Lemma doRequest_settled fuel c method endpoint body (w w0 w' : World T)
    request r :
  newRequest X c method endpoint body w = (inl request, w0) ->
  settled X request w0 r w' ->
  doRequest X (S fuel) c method endpoint body w =
    if http.StatusCode r =? 429 then
      match Atoi X (http.Get (http.RespHeader r) "Retry-After") with
      | inr err => (Ret (inr err), w')
      | inl seconds =>
          doRequest X fuel c method endpoint body
            (Sleep (wrap64 (seconds * time.Second)) w')
      end
    else if (http.StatusCode r <? 200) || (http.StatusCode r >? 299) then
      (Ret (inr (ApiError (statusError X (http.StatusCode r)))), w')
    else (Ret (inl r), w').
Proof.
  intros Hnew [[Hdo Hne] | (r1 & w1 & Hdo & H503 & Hdo2)].
  - eapply doRequest_first; eassumption.
  - eapply doRequest_retried; eassumption.
Qed.

Lemma in_2xx_checks code :
  200 <= code <= 299 ->
  (code =? 429) = false /\ ((code <? 200) || (code >? 299)) = false.
Proof.
  intros H. split.
  - apply Z.eqb_neq. lia.
  - rewrite Z.gtb_ltb. apply orb_false_iff.
    split; apply Z.ltb_ge; lia.
Qed.

Lemma out_2xx_checks code :
  code < 200 \/ 299 < code ->
  ((code <? 200) || (code >? 299)) = true.
Proof.
  intros [H | H]; apply orb_true_iff.
  - left. apply Z.ltb_lt. lia.
  - right. rewrite Z.gtb_ltb. apply Z.ltb_lt. lia.
Qed.

(** A response that [doRequest] returns has a 2xx status. *)
Lemma doRequest_returns_2xx fuel c method endpoint body (w w' : World T) r :
  doRequest X fuel c method endpoint body w = (Ret (inl r), w') ->
  200 <= http.StatusCode r <= 299.
Proof.
  revert w. induction fuel as [|fuel IH]; intros w; cbn [doRequest].
  - discriminate.
  - destruct (newRequest X c method endpoint body w) as [[request|err] w0];
      [|discriminate].
    destruct (clientDo X request w0) as [[r1|err] w1]; [|discriminate].
    destruct (if http.StatusCode r1 =? http.StatusServiceUnavailable
              then clientDo X request (Sleep time.Second w1)
              else (inl r1, w1)) as [[r2|err] w2]; [|discriminate].
    destruct (http.StatusCode r2 =? http.StatusTooManyRequests).
    + destruct (Atoi X _) as [seconds|err]; [apply IH | discriminate].
    + destruct ((http.StatusCode r2 <? 200) || (http.StatusCode r2 >? 299))
        eqn:Hout; [discriminate|].
      intros [= <- _]. apply orb_false_iff in Hout as [H1 H2].
      apply Z.ltb_ge in H1. rewrite Z.gtb_ltb in H2. apply Z.ltb_ge in H2.
      lia.
Qed.

End EngineFacts.

Section EngineClaims.

Context {T MR FO : Type}.
Variable X : Externals T MR FO.

(** C1. When the first transport attempt of a request answers 503 and
    the single retry answers a 2xx status, the call returns the response
    of the retry; between the two attempts it sleeps once, for
    [time.Second] (10^9 ns), and it makes no other call: one request
    built, two transport attempts, one sleep. *)
Theorem unavailable_once_then_success fuel c method endpoint body
    (w w0 w1 w2 : World T) request r1 r2 :
  newRequest X c method endpoint body w = (inl request, w0) ->
  clientDo X request w0 = (inl r1, w1) ->
  http.StatusCode r1 = 503 ->
  clientDo X request (Sleep time.Second w1) = (inl r2, w2) ->
  200 <= http.StatusCode r2 <= 299 ->
  doRequest X (S fuel) c method endpoint body w = (Ret (inl r2), w2)
  /\ trace w2 =
       trace w ++ [CallNewRequest method (apiURL X (Region c) endpoint) body;
                   CallDo request; CallSleep 1000000000; CallDo request].
Proof.
  intros Hnew Hdo H503 Hdo2 H2xx. split.
  - rewrite (doRequest_retried X fuel c method endpoint body w w0 w1 w2
               request r1 r2 Hnew Hdo H503 Hdo2).
    destruct (in_2xx_checks _ H2xx) as [-> ->]. reflexivity.
  - rewrite (clientDo_trace X _ _ _ _ Hdo2), Sleep_trace.
    rewrite (clientDo_trace X _ _ _ _ Hdo).
    rewrite (newRequest_trace X _ _ _ _ _ _ _ Hnew).
    rewrite <- !app_assoc. reflexivity.
Qed.

(** C2. When the first transport attempt and the single retry both
    answer 503, the call returns [api.ErrServiceUnavailable] (the entry
    of the status table for 503) after exactly two transport attempts.
    Whatever the retry answers, its response goes to the status checks
    that follow and never to a second unavailability retry: a 429 goes
    to the rate-limit policy, any other status outside 200..299 is
    returned as its status error with no further call. *)
Theorem unavailable_twice fuel c method endpoint body
    (w w0 w1 w2 : World T) request r1 r2 :
  newRequest X c method endpoint body w = (inl request, w0) ->
  clientDo X request w0 = (inl r1, w1) ->
  http.StatusCode r1 = 503 ->
  clientDo X request (Sleep time.Second w1) = (inl r2, w2) ->
  trace w2 =
    trace w ++ [CallNewRequest method (apiURL X (Region c) endpoint) body;
                CallDo request; CallSleep 1000000000; CallDo request]
  /\ (http.StatusCode r2 = 503 ->
      StatusToError X !! 503 = Some (ErrServiceUnavailable X) ->
      doRequest X (S fuel) c method endpoint body w
      = (Ret (inr (ApiError (ErrServiceUnavailable X))), w2))
  /\ (http.StatusCode r2 < 200 \/ 299 < http.StatusCode r2 ->
      http.StatusCode r2 <> 429 ->
      doRequest X (S fuel) c method endpoint body w
      = (Ret (inr (ApiError (statusError X (http.StatusCode r2)))), w2))
  /\ (http.StatusCode r2 = 429 ->
      doRequest X (S fuel) c method endpoint body w
      = match Atoi X (http.Get (http.RespHeader r2) "Retry-After") with
        | inr err => (Ret (inr err), w2)
        | inl seconds =>
            doRequest X fuel c method endpoint body
              (Sleep (wrap64 (seconds * time.Second)) w2)
        end).
Proof.
  intros Hnew Hdo H503 Hdo2.
  pose proof (doRequest_retried X fuel c method endpoint body w w0 w1 w2
                request r1 r2 Hnew Hdo H503 Hdo2) as Hrun.
  split; [|split; [|split]].
  - rewrite (clientDo_trace X _ _ _ _ Hdo2), Sleep_trace.
    rewrite (clientDo_trace X _ _ _ _ Hdo).
    rewrite (newRequest_trace X _ _ _ _ _ _ _ Hnew).
    rewrite <- !app_assoc. reflexivity.
  - intros H2 Htable. rewrite Hrun, H2. cbn [Z.eqb Pos.eqb Z.ltb Z.gtb Z.compare Pos.compare Pos.compare_cont orb].
    unfold statusError. rewrite Htable. reflexivity.
  - intros Hout Hne. rewrite Hrun.
    destruct (Z.eqb_spec (http.StatusCode r2) 429) as [|_]; [contradiction|].
    rewrite (out_2xx_checks _ Hout). reflexivity.
  - intros H429. rewrite Hrun, H429. reflexivity.
Qed.

(** C3. When the first attempt answers 429 with a [Retry-After] header
    that reads as the integer 2 and the first attempt of the
    re-invocation answers a 2xx status, the call returns that response
    after one sleep of 2 seconds (2 * 10^9 ns) and exactly one
    re-invocation of [doRequest]: the request is built twice and sent
    twice. One invocation alone does not finish the call. *)
Theorem rate_limited_then_success fuel c method endpoint body
    (w w0 w1 w2 w3 : World T) request request' r1 r2 :
  newRequest X c method endpoint body w = (inl request, w0) ->
  clientDo X request w0 = (inl r1, w1) ->
  http.StatusCode r1 = 429 ->
  Atoi X (http.Get (http.RespHeader r1) "Retry-After") = inl 2 ->
  newRequest X c method endpoint body (Sleep 2000000000 w1)
    = (inl request', w2) ->
  clientDo X request' w2 = (inl r2, w3) ->
  200 <= http.StatusCode r2 <= 299 ->
  doRequest X (S (S fuel)) c method endpoint body w = (Ret (inl r2), w3)
  /\ doRequest X 1 c method endpoint body w = (Pending, Sleep 2000000000 w1)
  /\ trace w3 =
       trace w ++ [CallNewRequest method (apiURL X (Region c) endpoint) body;
                   CallDo request; CallSleep 2000000000;
                   CallNewRequest method (apiURL X (Region c) endpoint) body;
                   CallDo request'].
Proof.
  intros Hnew Hdo H429 Hretry Hnew' Hdo' H2xx.
  assert (Hne : http.StatusCode r1 <> 503) by lia.
  assert (Hne' : http.StatusCode r2 <> 503) by lia.
  split; [|split].
  - rewrite (doRequest_first X _ c method endpoint body w w0 w1 request r1
               Hnew Hdo Hne).
    rewrite H429, Hretry. cbn [Z.eqb Pos.eqb].
    change (wrap64 (2 * time.Second)) with 2000000000.
    rewrite (doRequest_first X _ c method endpoint body _ w2 w3 request' r2
               Hnew' Hdo' Hne').
    destruct (in_2xx_checks _ H2xx) as [-> ->]. reflexivity.
  - rewrite (doRequest_first X _ c method endpoint body w w0 w1 request r1
               Hnew Hdo Hne).
    rewrite H429, Hretry. reflexivity.
  - rewrite (clientDo_trace X _ _ _ _ Hdo').
    rewrite (newRequest_trace X _ _ _ _ _ _ _ Hnew'), Sleep_trace.
    rewrite (clientDo_trace X _ _ _ _ Hdo).
    rewrite (newRequest_trace X _ _ _ _ _ _ _ Hnew).
    rewrite <- !app_assoc. reflexivity.
Qed.

(** C4. When the response that reaches the rate-limit check has status
    429 and its [Retry-After] value does not read as an integer, the
    call returns the error of [strconv.Atoi] in the very world in which
    that response came in: no sleep and no re-invocation follow it (a
    single invocation suffices), and when the 429 is the first response
    the call has built one request and sent it once. *)
Theorem rate_limit_header_unreadable fuel c method endpoint body
    (w w0 w' : World T) request r err :
  newRequest X c method endpoint body w = (inl request, w0) ->
  settled X request w0 r w' ->
  http.StatusCode r = 429 ->
  Atoi X (http.Get (http.RespHeader r) "Retry-After") = inr err ->
  doRequest X (S fuel) c method endpoint body w = (Ret (inr err), w')
  /\ (clientDo X request w0 = (inl r, w') ->
      trace w' =
        trace w ++ [CallNewRequest method (apiURL X (Region c) endpoint) body;
                    CallDo request]).
Proof.
  intros Hnew Hset H429 Hatoi. split.
  - rewrite (doRequest_settled X fuel c method endpoint body w w0 w' request r
               Hnew Hset).
    rewrite H429, Hatoi. reflexivity.
  - intros Hdo. rewrite (clientDo_trace X _ _ _ _ Hdo).
    rewrite (newRequest_trace X _ _ _ _ _ _ _ Hnew).
    rewrite <- !app_assoc. reflexivity.
Qed.

(** C5. When the response left by the retry policies (not a 429, and
    past the unavailability retry) has a status outside 200..299, the
    call returns the entry of [api.StatusToError] for that status, and
    makes no further call. For every method, endpoint and body, status
    404 yields [api.ErrNotFound], its entry in the table; a status with
    no entry yields [api.Error{Message: "unknown error reason",
    StatusCode: code}], for instance with code 999. *)
Theorem status_outside_2xx fuel c method endpoint body
    (w w0 w' : World T) request r :
  newRequest X c method endpoint body w = (inl request, w0) ->
  settled X request w0 r w' ->
  http.StatusCode r <> 429 ->
  http.StatusCode r < 200 \/ 299 < http.StatusCode r ->
  (forall e, StatusToError X !! http.StatusCode r = Some e ->
     doRequest X (S fuel) c method endpoint body w
     = (Ret (inr (ApiError e)), w'))
  /\ (http.StatusCode r = 404 ->
      StatusToError X !! 404 = Some (ErrNotFound X) ->
      doRequest X (S fuel) c method endpoint body w
      = (Ret (inr (ApiError (ErrNotFound X))), w'))
  /\ (StatusToError X !! http.StatusCode r = None ->
      doRequest X (S fuel) c method endpoint body w
      = (Ret (inr (ApiError
                     {| api.Message := "unknown error reason";
                        api.StatusCode := http.StatusCode r |})), w'))
  /\ (http.StatusCode r = 999 ->
      StatusToError X !! 999 = None ->
      doRequest X (S fuel) c method endpoint body w
      = (Ret (inr (ApiError
                     {| api.Message := "unknown error reason";
                        api.StatusCode := 999 |})), w')).
Proof.
  intros Hnew Hset Hne Hout.
  assert (Hrun : doRequest X (S fuel) c method endpoint body w
                 = (Ret (inr (ApiError (statusError X (http.StatusCode r)))),
                    w')).
  { rewrite (doRequest_settled X fuel c method endpoint body w w0 w' request r
               Hnew Hset).
    destruct (Z.eqb_spec (http.StatusCode r) 429) as [|_]; [contradiction|].
    rewrite (out_2xx_checks _ Hout). reflexivity. }
  rewrite Hrun. unfold statusError.
  split; [|split; [|split]].
  - intros e ->. reflexivity.
  - intros -> ->. reflexivity.
  - intros ->. reflexivity.
  - intros -> ->. reflexivity.
Qed.

(** C8. A GET whose response has a status in 200..299 (the first
    response, or the response of the retry that follows a 503) leaves
    in the caller's target exactly the value that the JSON decoder
    makes of the response body, and returns the decoder's error, if
    any, as it is; nothing is called after the response came in. *)
Theorem getInto_decodes {A : Type} (Decode : string -> A -> A * option error)
    fuel c endpoint (target t : A) (e : option error) (w w0 w' : World T)
    request r :
  newRequest X c "GET" endpoint None w = (inl request, w0) ->
  settled X request w0 r w' ->
  200 <= http.StatusCode r <= 299 ->
  Decode (http.Body r) target = (t, e) ->
  getInto X Decode (S fuel) c endpoint target w = (Ret (t, e), w').
Proof.
  intros Hnew Hset H2xx Hdec. unfold getInto, get.
  rewrite (doRequest_settled X fuel c "GET" endpoint None w w0 w' request r
             Hnew Hset).
  destruct (in_2xx_checks _ H2xx) as [-> ->].
  rewrite Hdec. destruct e; reflexivity.
Qed.

End EngineClaims.

(** ** The match streams: theorems *)

Lemma wrap64_small z : - 2 ^ 63 <= z <= maxInt -> wrap64 z = z.
Proof.
  unfold wrap64, maxInt. intros H.
  rewrite Z.mod_small by lia. lia.
Qed.

Lemma ceilDiv_100 n : (n mod 100 <> 0 -> ceilDiv n 100 = S (n / 100))%nat.
Proof.
  intros Hr. unfold ceilDiv.
  pose proof (Nat.div_mod_eq n 100) as Hn.
  pose proof (Nat.mod_upper_bound n 100 ltac:(lia)) as Hlt.
  symmetry.
  apply (Nat.div_unique _ 100 _ (n mod 100 - 1)); lia.
Qed.

Section PageFacts.

Context {E : Type}.
Variable all : list E.

(** The page of the window [[100 k, 100 k + 100)] of [all]. *)
Lemma page_full k :
  (k < length all / 100)%nat ->
  length (take 100 (drop (100 * k) all)) = 100%nat.
Proof.
  intros Hk. rewrite length_take, length_drop.
  pose proof (Nat.div_mod_eq (length all) 100). lia.
Qed.

Lemma page_last k :
  (k = length all / 100)%nat ->
  (length (take 100 (drop (100 * k) all)) < 100)%nat
  /\ take 100 (drop (100 * k) all) = drop (100 * k) all.
Proof.
  intros ->.
  pose proof (Nat.div_mod_eq (length all) 100) as Hn.
  pose proof (Nat.mod_upper_bound (length all) 100 ltac:(lia)) as Hlt.
  assert (Hlen : (length (drop (100 * (length all / 100)) all) < 100)%nat)
    by (rewrite length_drop; lia).
  rewrite take_ge by lia. split; [exact Hlen | reflexivity].
Qed.

Lemma page_then_rest k :
  take 100 (drop (100 * k) all) ++ drop (100 * S k) all = drop (100 * k) all.
Proof.
  replace (100 * S k)%nat with (100 * k + 100)%nat by lia.
  rewrite <- drop_drop. apply take_drop.
Qed.

End PageFacts.

Section StreamFacts.

Context {T MR FO : Type}.
Variable X : Externals T MR FO.

Lemma next_window (k : nat) :
  100 * Z.of_nat (S k) + 100 <= maxInt ->
  wrap64 (100 * Z.of_nat k + 100) = 100 * Z.of_nat (S k)
  /\ wrap64 (100 * Z.of_nat k + 100 + 100) = 100 * Z.of_nat (S k) + 100.
Proof.
  intros H. unfold maxInt in H.
  rewrite !wrap64_small by (unfold maxInt; lia). lia.
Qed.

(** From the page [k] on, [d + 1] served pages end the loop of
    [ListStream] on the short page. *)
Lemma ListStream_loop_serves rfuel c accountID filter (all : list (option MR)) :
  forall (d k fuel : nat) cMatches log (w wEnd : World T),
    (length all / 100 = k + d)%nat ->
    Z.of_nat (length all) + 100 <= maxInt ->
    serves (fun b e => List X rfuel c accountID (pointingAt filter b e))
           all k (S d) w wEnd ->
    (S d <= fuel)%nat ->
    ListStream_loop X fuel rfuel c accountID filter
      (100 * Z.of_nat k) (100 * Z.of_nat k + 100) cMatches log w
    = {| sent := cMatches ++ map itemValue (drop (100 * k) all)
                   ++ [errorValue EOF];
         calls := log ++ map (windowFilter filter) (seq k (S d));
         status := Returned;
         world := wEnd |}.
Proof.
  induction d as [|d IH]; intros k fuel cMatches log w wEnd Hq Hmax Hs Hfuel;
    (destruct fuel as [|fuel]; [lia|]);
    cbn [serves] in Hs; destruct Hs as (w' & Hfetch & Hs);
    cbn [ListStream_loop]; rewrite Hfetch; cbn [Matches].
  - cbn [serves] in Hs. subst w'.
    destruct (page_last all k ltac:(lia)) as [Hlen Heq].
    destruct (Z.ltb_spec (Z.of_nat (length (take 100 (drop (100 * k) all)))) 100)
      as [_|]; [|lia].
    rewrite Heq, <- app_assoc. reflexivity.
  - pose proof (page_full all k ltac:(lia)) as Hlen.
    destruct (Z.ltb_spec (Z.of_nat (length (take 100 (drop (100 * k) all)))) 100)
      as [|_]; [lia|].
    pose proof (Nat.div_mod_eq (length all) 100) as Hn.
    destruct (next_window k ltac:(lia)) as [-> ->].
    rewrite (IH (S k) fuel _ _ w' wEnd ltac:(lia) Hmax Hs ltac:(lia)).
    f_equal.
    + rewrite <- !app_assoc. f_equal. rewrite app_assoc, <- map_app.
      rewrite page_then_rest. reflexivity.
    + rewrite <- app_assoc. reflexivity.
Qed.

(** The same for the loop of [GetMatchesByAccountStream]. *)
Lemma GetMatchesByAccountStream_loop_serves rfuel c accountID (all : list MR) :
  forall (d k fuel : nat) cMatches log (w wEnd : World T),
    (length all / 100 = k + d)%nat ->
    Z.of_nat (length all) + 100 <= maxInt ->
    serves (GetMatchesByAccount X rfuel c accountID) all k (S d) w wEnd ->
    (S d <= fuel)%nat ->
    GetMatchesByAccountStream_loop X fuel rfuel c accountID
      (100 * Z.of_nat k) cMatches log w
    = {| sent := cMatches
                   ++ map (fun m => itemValue (Some m)) (drop (100 * k) all)
                   ++ [errorValue EOF];
         calls := log ++ map windowRange (seq k (S d));
         status := Returned;
         world := wEnd |}.
Proof.
  induction d as [|d IH]; intros k fuel cMatches log w wEnd Hq Hmax Hs Hfuel;
    (destruct fuel as [|fuel]; [lia|]);
    cbn [serves] in Hs; destruct Hs as (w' & Hfetch & Hs);
    pose proof (Nat.div_mod_eq (length all) 100) as Hn;
    cbn [GetMatchesByAccountStream_loop];
    rewrite (wrap64_small (100 * Z.of_nat k + 100)) by (unfold maxInt in *; lia);
    rewrite Hfetch; cbn [Matches].
  - cbn [serves] in Hs. subst w'.
    destruct (page_last all k ltac:(lia)) as [Hlen Heq].
    destruct (Z.ltb_spec (Z.of_nat (length (take 100 (drop (100 * k) all)))) 100)
      as [_|]; [|lia].
    rewrite Heq, <- app_assoc. reflexivity.
  - pose proof (page_full all k ltac:(lia)) as Hlen.
    destruct (Z.ltb_spec (Z.of_nat (length (take 100 (drop (100 * k) all)))) 100)
      as [|_]; [lia|].
    destruct (next_window k ltac:(lia)) as [Hnext _].
    rewrite (wrap64_small (100 * Z.of_nat k + 100)) in Hnext
      by (unfold maxInt in *; lia).
    rewrite Hnext.
    rewrite (IH (S k) fuel _ _ w' wEnd ltac:(lia) Hmax Hs ltac:(lia)).
    f_equal.
    + rewrite <- !app_assoc. f_equal. rewrite app_assoc, <- map_app.
      rewrite page_then_rest. reflexivity.
    + rewrite <- app_assoc. cbn [seq map app]. unfold windowRange.
      rewrite Hnext. reflexivity.
Qed.

End StreamFacts.

Section StreamShape.

Context {T MR FO : Type}.
Variable X : Externals T MR FO.

(** Every value sent by the loop of [GetMatchesByAccountStream] has
    exactly one payload field populated. *)
Lemma GetMatchesByAccountStream_loop_Forall rfuel c accountID :
  forall fuel start cMatches log (w : World T),
    Forall populatedOnce cMatches ->
    Forall populatedOnce
      (sent (GetMatchesByAccountStream_loop X fuel rfuel c accountID
               start cMatches log w)).
Proof.
  assert (Herr : forall err, populatedOnce (@errorValue MR err)).
  { intros err. right. split; [reflexivity | eexists; reflexivity]. }
  induction fuel as [|fuel IH]; intros start cMatches log w Hsent;
    cbn [GetMatchesByAccountStream_loop]; [exact Hsent|].
  destruct (GetMatchesByAccount X rfuel c accountID start
              (wrap64 (start + 100)) w)
    as [[[[m|]|err]|] w1]; cbn [sent]; try exact Hsent.
  - assert (Hitems : Forall populatedOnce
              (cMatches ++ map (fun m => itemValue (Some m)) (Matches m))).
    { apply Forall_app. split; [exact Hsent|].
      apply Forall_fmap, Forall_forall. intros x _.
      left. split; [eexists; reflexivity | reflexivity]. }
    destruct (Z.of_nat (length (Matches m)) <? 100); cbn [sent].
    + apply Forall_app. split; [exact Hitems|].
      apply Forall_cons. split; [apply Herr | apply Forall_nil_2].
    + apply IH, Hitems.
  - apply Forall_app. split; [exact Hsent|].
    apply Forall_cons. split; [apply Herr | apply Forall_nil_2].
Qed.

(** The log of the page fetches of the loop of [ListStream]: as long as
    the window stays in the range of [int], the entry [k] is the
    caller's filter pointing at [[100 k, 100 k + 100)]. *)
Lemma ListStream_loop_calls rfuel c accountID filter :
  forall fuel start end_ cMatches log (w : World T),
    (forall i f, log !! i = Some f ->
                 100 * Z.of_nat i + 100 <= maxInt ->
                 f = windowFilter filter i) ->
    (100 * Z.of_nat (length log) + 100 <= maxInt ->
     start = 100 * Z.of_nat (length log)
     /\ end_ = 100 * Z.of_nat (length log) + 100) ->
    forall k f,
      calls (ListStream_loop X fuel rfuel c accountID filter
               start end_ cMatches log w) !! k = Some f ->
      100 * Z.of_nat k + 100 <= maxInt ->
      f = windowFilter filter k.
Proof.
  induction fuel as [|fuel IH]; intros start end_ cMatches log w Hlog Hcur;
    cbn [ListStream_loop]; [exact Hlog|].
  assert (Hlog' : forall i f,
             (log ++ [pointingAt filter start end_]) !! i = Some f ->
             100 * Z.of_nat i + 100 <= maxInt ->
             f = windowFilter filter i).
  { intros i f Hi Hmax.
    destruct (decide (i < length log)%nat) as [Hlt|Hge].
    - rewrite lookup_app_l in Hi by exact Hlt. apply Hlog; assumption.
    - rewrite lookup_app_r in Hi by lia.
      destruct (i - length log)%nat as [|j] eqn:Hj; [|discriminate].
      assert (i = length log) by lia. subst i.
      destruct (Hcur Hmax) as [-> ->]. injection Hi as <-. reflexivity. }
  destruct (List X rfuel c accountID (pointingAt filter start end_) w)
    as [[[[m|]|err]|] w1]; cbn [calls]; try exact Hlog'.
  destruct (Z.of_nat (length (Matches m)) <? 100); cbn [calls];
    [exact Hlog'|].
  apply IH; [exact Hlog'|].
  rewrite length_app. cbn [length]. intros Hmax.
  destruct Hcur as [-> ->]; [lia|].
  replace (length log + 1)%nat with (S (length log)) in * by lia.
  apply next_window. exact Hmax.
Qed.

(** The loop of [ListStream] only appends to the log of its page
    fetches, and a loop that runs at all fetches a page first. *)
Lemma ListStream_loop_calls_first rfuel c accountID filter :
  forall fuel start end_ cMatches log (w : World T),
    exists rest,
      calls (ListStream_loop X (S fuel) rfuel c accountID filter
               start end_ cMatches log w)
      = log ++ pointingAt filter start end_ :: rest.
Proof.
  induction fuel as [|fuel IH]; intros start end_ cMatches log w.
  - cbn [ListStream_loop].
    destruct (List X rfuel c accountID (pointingAt filter start end_) w)
      as [[[[m|]|err]|] w1]; cbn [calls]; try (exists []; reflexivity).
    destruct (Z.of_nat (length (Matches m)) <? 100); cbn [calls];
      exists []; reflexivity.
  - remember (S fuel) as fuel1 eqn:Hfuel1. cbn [ListStream_loop].
    destruct (List X rfuel c accountID (pointingAt filter start end_) w)
      as [[[[m|]|err]|] w1]; cbn [calls]; try (exists []; reflexivity).
    destruct (Z.of_nat (length (Matches m)) <? 100); cbn [calls];
      [exists []; reflexivity|].
    subst fuel1.
    destruct (IH (wrap64 (start + 100)) (wrap64 (end_ + 100))
                (cMatches ++ map itemValue (Matches m))
                (log ++ [pointingAt filter start end_]) w1) as [rest ->].
    rewrite <- app_assoc. eexists. reflexivity.
Qed.

(** The loop of [ListStream] only appends to what was sent. *)
Lemma ListStream_loop_sent_prefix rfuel c accountID filter :
  forall fuel start end_ cMatches log (w : World T),
    exists rest,
      sent (ListStream_loop X fuel rfuel c accountID filter
              start end_ cMatches log w)
      = cMatches ++ rest.
Proof.
  induction fuel as [|fuel IH]; intros start end_ cMatches log w;
    cbn [ListStream_loop].
  - exists []. cbn [sent]. rewrite app_nil_r. reflexivity.
  - destruct (List X rfuel c accountID (pointingAt filter start end_) w)
      as [[[[m|]|err]|] w1]; cbn [sent];
      try (exists []; rewrite app_nil_r; reflexivity);
      try (eexists; reflexivity).
    destruct (Z.of_nat (length (Matches m)) <? 100); cbn [sent].
    + rewrite <- app_assoc. eexists. reflexivity.
    + destruct (IH (wrap64 (start + 100)) (wrap64 (end_ + 100))
                  (cMatches ++ map itemValue (Matches m))
                  (log ++ [pointingAt filter start end_]) w1) as [rest ->].
      rewrite <- app_assoc. eexists. reflexivity.
Qed.

(** The log of the loop of [ListStream] is the list of the filters
    that [List] was called with: calling [List] on the new entries of
    the log, one after the other, leads from the world at the start of
    the loop to the world at its end. *)
Lemma ListStream_loop_replay rfuel c accountID filter :
  forall fuel start end_ cMatches log (w : World T),
    exists new,
      calls (ListStream_loop X fuel rfuel c accountID filter
               start end_ cMatches log w) = log ++ new
      /\ world (ListStream_loop X fuel rfuel c accountID filter
                  start end_ cMatches log w)
         = fold_left (fun w' f => snd (List X rfuel c accountID f w')) new w.
Proof.
  induction fuel as [|fuel IH]; intros start end_ cMatches log w;
    cbn [ListStream_loop].
  - exists []. cbn [calls world fold_left]. rewrite app_nil_r.
    split; reflexivity.
  - destruct (List X rfuel c accountID (pointingAt filter start end_) w)
      as [r w1] eqn:Hfetch.
    assert (Hone : forall (run : StreamRun (MatchStreamValue MR)
                                           (MatchFilter FO) (World T)),
               calls run = log ++ [pointingAt filter start end_] ->
               world run = w1 ->
               exists new,
                 calls run = log ++ new
                 /\ world run
                    = fold_left
                        (fun w' f => snd (List X rfuel c accountID f w'))
                        new w).
    { intros run Hc Hw. exists [pointingAt filter start end_].
      split; [exact Hc|]. cbn [fold_left]. rewrite Hfetch. exact Hw. }
    destruct r as [[[m|]|err]|]; try (apply Hone; reflexivity).
    destruct (Z.of_nat (length (Matches m)) <? 100);
      [apply Hone; reflexivity|].
    destruct (IH (wrap64 (start + 100)) (wrap64 (end_ + 100))
                (cMatches ++ map itemValue (Matches m))
                (log ++ [pointingAt filter start end_]) w1)
      as (new & Hcalls & Hworld).
    exists (pointingAt filter start end_ :: new). split.
    + rewrite Hcalls, <- app_assoc. reflexivity.
    + rewrite Hworld. cbn [fold_left]. rewrite Hfetch. reflexivity.
Qed.

(** The log of the loop of [GetMatchesByAccountStream] is the list of
    the ranges that [GetMatchesByAccount] was called with. *)
Lemma GetMatchesByAccountStream_loop_replay rfuel c accountID :
  forall fuel start cMatches log (w : World T),
    exists new,
      calls (GetMatchesByAccountStream_loop X fuel rfuel c accountID
               start cMatches log w) = log ++ new
      /\ world (GetMatchesByAccountStream_loop X fuel rfuel c accountID
                  start cMatches log w)
         = fold_left
             (fun w' r =>
                snd (GetMatchesByAccount X rfuel c accountID
                       (fst r) (snd r) w'))
             new w.
Proof.
  induction fuel as [|fuel IH]; intros start cMatches log w;
    cbn [GetMatchesByAccountStream_loop].
  - exists []. cbn [calls world fold_left]. rewrite app_nil_r.
    split; reflexivity.
  - destruct (GetMatchesByAccount X rfuel c accountID start
                (wrap64 (start + 100)) w) as [r w1] eqn:Hfetch.
    assert (Hone : forall (run : StreamRun (MatchStreamValue MR)
                                           (Z * Z) (World T)),
               calls run = log ++ [(start, wrap64 (start + 100))] ->
               world run = w1 ->
               exists new,
                 calls run = log ++ new
                 /\ world run
                    = fold_left
                        (fun w' r =>
                           snd (GetMatchesByAccount X rfuel c accountID
                                  (fst r) (snd r) w'))
                        new w).
    { intros run Hc Hw. exists [(start, wrap64 (start + 100))].
      split; [exact Hc|]. cbn [fold_left fst snd]. rewrite Hfetch. exact Hw. }
    destruct r as [[[m|]|err]|]; try (apply Hone; reflexivity).
    destruct (Z.of_nat (length (Matches m)) <? 100);
      [apply Hone; reflexivity|].
    destruct (IH (wrap64 (start + 100))
                (cMatches ++ map (fun m => itemValue (Some m)) (Matches m))
                (log ++ [(start, wrap64 (start + 100))]) w1)
      as (new & Hcalls & Hworld).
    exists ((start, wrap64 (start + 100)) :: new). split.
    + rewrite Hcalls, <- app_assoc. reflexivity.
    + rewrite Hworld. cbn [fold_left fst snd]. rewrite Hfetch. reflexivity.
Qed.

End StreamShape.

Section StreamClaims.

Context {T MR FO : Type}.
Variable X : Externals T MR FO.

(** C6. For an account whose number of matches is not a multiple of
    100 (and fits an [int] with one window to spare), when every page
    fetch succeeds with the matches of its window, each of the two
    streams ends after exactly [ceil (count / 100)] page fetches, having
    sent every match once, in page order and in-page order, followed by
    exactly one terminal value that carries [io.EOF]. The page fetches
    counted are the calls of [List] (of [GetMatchesByAccount]) that the
    stream made: made one after the other on the arguments of the log,
    they lead from the world at the start to the world at the end. *)
Theorem stream_of_non_multiple_of_100 rfuel c accountID :
  (forall fuel filter (all : list (option MR)) (w wEnd : World T),
     (length all mod 100 <> 0)%nat ->
     Z.of_nat (length all) + 100 <= maxInt ->
     serves (fun b e => List X rfuel c accountID (pointingAt filter b e))
            all 0 (ceilDiv (length all) 100) w wEnd ->
     (ceilDiv (length all) 100 <= fuel)%nat ->
     ListStream X fuel rfuel c accountID filter w
     = {| sent := map (fun m => {| MatchReference := m; Error := None |}) all ++ [{| MatchReference := None; Error := Some EOF |}];
          calls := map (windowFilter filter)
                       (seq 0 (ceilDiv (length all) 100));
          status := Returned;
          world := wEnd |}
     /\ length (calls (ListStream X fuel rfuel c accountID filter w))
        = ceilDiv (length all) 100
     /\ fold_left (fun w' f => snd (List X rfuel c accountID f w'))
                  (calls (ListStream X fuel rfuel c accountID filter w)) w
        = wEnd)
  /\ (forall fuel (all : list MR) (w wEnd : World T),
        (length all mod 100 <> 0)%nat ->
        Z.of_nat (length all) + 100 <= maxInt ->
        serves (GetMatchesByAccount X rfuel c accountID)
               all 0 (ceilDiv (length all) 100) w wEnd ->
        (ceilDiv (length all) 100 <= fuel)%nat ->
        GetMatchesByAccountStream X fuel rfuel c accountID w
        = {| sent := map (fun m => {| MatchReference := Some m; Error := None |}) all ++ [{| MatchReference := None; Error := Some EOF |}];
             calls := map windowRange (seq 0 (ceilDiv (length all) 100));
             status := Returned;
             world := wEnd |}
        /\ length (calls (GetMatchesByAccountStream X fuel rfuel c accountID w))
           = ceilDiv (length all) 100
        /\ fold_left
             (fun w' r =>
                snd (GetMatchesByAccount X rfuel c accountID
                       (fst r) (snd r) w'))
             (calls (GetMatchesByAccountStream X fuel rfuel c accountID w)) w
           = wEnd).
Proof.
  split.
  - intros fuel filter all w wEnd Hr Hmax Hs Hfuel.
    rewrite (ceilDiv_100 _ Hr) in *.
    assert (Hrun : ListStream X fuel rfuel c accountID filter w
                   = {| sent := map (fun m => {| MatchReference := m; Error := None |}) all ++ [{| MatchReference := None; Error := Some EOF |}];
                        calls := map (windowFilter filter)
                                     (seq 0 (S (length all / 100)));
                        status := Returned;
                        world := wEnd |}).
    { unfold ListStream.
      apply (ListStream_loop_serves X rfuel c accountID filter all
               (length all / 100) 0 fuel [] [] w wEnd);
        [reflexivity | exact Hmax | exact Hs | exact Hfuel]. }
    split; [exact Hrun|]. split.
    + rewrite Hrun. cbn [calls]. rewrite length_map, length_seq. reflexivity.
    + unfold ListStream in *.
      destruct (ListStream_loop_replay X rfuel c accountID filter fuel 0 100
                  [] [] w) as (new & Hcalls & Hworld).
      rewrite Hcalls. cbn [app]. rewrite <- Hworld, Hrun. reflexivity.
  - intros fuel all w wEnd Hr Hmax Hs Hfuel.
    rewrite (ceilDiv_100 _ Hr) in *.
    assert (Hrun : GetMatchesByAccountStream X fuel rfuel c accountID w
                   = {| sent := map (fun m => {| MatchReference := Some m; Error := None |}) all
                                  ++ [{| MatchReference := None; Error := Some EOF |}];
                        calls := map windowRange
                                     (seq 0 (S (length all / 100)));
                        status := Returned;
                        world := wEnd |}).
    { unfold GetMatchesByAccountStream.
      apply (GetMatchesByAccountStream_loop_serves X rfuel c accountID all
               (length all / 100) 0 fuel [] [] w wEnd);
        [reflexivity | exact Hmax | exact Hs | exact Hfuel]. }
    split; [exact Hrun|]. split.
    + rewrite Hrun. cbn [calls]. rewrite length_map, length_seq. reflexivity.
    + unfold GetMatchesByAccountStream in *.
      destruct (GetMatchesByAccountStream_loop_replay X rfuel c accountID
                  fuel 0 [] [] w) as (new & Hcalls & Hworld).
      rewrite Hcalls. cbn [app]. rewrite <- Hworld, Hrun. reflexivity.
Qed.

(** C7. When the fetch of page 1 succeeds with a full page of 100
    matches and the fetch of page 2 returns an error, [ListStream] sends
    the 100 matches of page 1 in order, then exactly one terminal value
    that carries that error, and ends after these two page fetches. *)
Theorem stream_error_on_second_page fuel rfuel c accountID filter
    (w w1 w2 : World T) page1 err :
  List X rfuel c accountID (pointingAt filter 0 100) w
    = (Ret (inl (Some page1)), w1) ->
  length (Matches page1) = 100%nat ->
  List X rfuel c accountID (pointingAt filter 100 200) w1
    = (Ret (inr err), w2) ->
  (2 <= fuel)%nat ->
  ListStream X fuel rfuel c accountID filter w
  = {| sent := map (fun m => {| MatchReference := m; Error := None |}) (Matches page1) ++ [{| MatchReference := None; Error := Some err |}];
       calls := [pointingAt filter 0 100; pointingAt filter 100 200];
       status := Returned;
       world := w2 |}.
Proof.
  intros H1 Hlen H2 Hfuel.
  destruct fuel as [|[|fuel]]; [lia | lia |].
  unfold ListStream. cbn [ListStream_loop].
  rewrite H1, Hlen.
  change (Z.of_nat 100 <? 100) with false. cbn iota.
  change (wrap64 (0 + 100)) with 100. change (wrap64 (100 + 100)) with 200.
  rewrite H2. reflexivity.
Qed.

(** C9. The claim holds of [GetMatchesByAccountStream], which sends
    every item through a fresh pointer: each of its values has exactly
    one payload field populated. It fails on [ListStream], which sends
    the pointers of the fetched page as they are: the entry [i] of the
    first page is the [MatchReference] of the value [i] of the stream,
    with a nil [Error], so a nil entry of the page (a JSON [null]) is
    sent as a value with both fields nil, against the comment of
    [MatchStreamValue] ("containing either a reference to a match or an
    error"). *)
Theorem ListStream_forwards_nil_entries fuel rfuel c accountID filter
    (w w1 : World T) page :
  fuel <> 0%nat ->
  List X rfuel c accountID
       {| BeginIndex := Some 0; EndIndex := Some 100;
          others := others filter |} w
  = (Ret (inl (Some page)), w1) ->
  (forall i m,
     Matches page !! i = Some m ->
     sent (ListStream X fuel rfuel c accountID filter w) !! i
     = Some {| MatchReference := m; Error := None |})
  /\ (forall i,
        Matches page !! i = Some None ->
        exists v,
          sent (ListStream X fuel rfuel c accountID filter w) !! i = Some v
          /\ MatchReference v = None /\ Error v = None
          /\ ~ populatedOnce v)
  /\ (forall w' : World T,
        Forall populatedOnce
          (sent (GetMatchesByAccountStream X fuel rfuel c accountID w'))).
Proof.
  intros Hfuel Hfetch.
  assert (Hitems : forall i m,
             Matches page !! i = Some m ->
             sent (ListStream X fuel rfuel c accountID filter w) !! i
             = Some {| MatchReference := m; Error := None |}).
  { intros i m Hi. destruct fuel as [|fuel']; [contradiction|].
    unfold ListStream. cbn [ListStream_loop].
    change (pointingAt filter 0 100)
      with {| BeginIndex := Some 0; EndIndex := Some 100;
              others := others filter |}.
    rewrite Hfetch.
    assert (Hin : (@nil (MatchStreamValue MR) ++ map itemValue (Matches page))
                  !! i = Some {| MatchReference := m; Error := None |}).
    { cbn [app]. rewrite list_lookup_fmap, Hi. reflexivity. }
    destruct (Z.of_nat (length (Matches page)) <? 100); cbn [sent].
    - apply lookup_app_l_Some. exact Hin.
    - match goal with
      | |- sent (ListStream_loop _ _ _ _ _ _ ?s ?e ?cM ?log ?w') !! _ = _ =>
          destruct (ListStream_loop_sent_prefix X rfuel c accountID filter
                      fuel' s e cM log w') as [rest ->]
      end.
      apply lookup_app_l_Some. exact Hin. }
  split; [exact Hitems|]. split.
  - intros i Hi. eexists. split; [apply Hitems, Hi|].
    cbn [MatchReference Error]. split; [reflexivity|]. split; [reflexivity|].
    intros [[[x Hx] _] | [_ [x Hx]]]; discriminate.
  - intros w'. apply GetMatchesByAccountStream_loop_Forall. apply Forall_nil_2.
Qed.

(** C10. Whatever begin and end index the caller's filter holds,
    the page fetches of [ListStream] are the calls of [List] on the
    filters of its log, in order (they lead from the world at the start
    to the world at the end); the first of these filters points at
    [[0, 100)], and the filter of every page fetch [k] whose window
    fits an [int] points at [[100 k, 100 k + 100)]; the other fields of
    the filter reach every page fetch as the caller set them. *)
Theorem ListStream_overwrites_window fuel rfuel c accountID filter
    (w : World T) :
  world (ListStream X fuel rfuel c accountID filter w)
  = fold_left (fun w' f => snd (List X rfuel c accountID f w'))
              (calls (ListStream X fuel rfuel c accountID filter w)) w
  /\ (fuel <> 0%nat ->
      calls (ListStream X fuel rfuel c accountID filter w) !! 0%nat
      = Some {| BeginIndex := Some 0; EndIndex := Some 100;
                others := others filter |})
  /\ (forall k f,
        calls (ListStream X fuel rfuel c accountID filter w) !! k = Some f ->
        100 * Z.of_nat k + 100 <= maxInt ->
        f = {| BeginIndex := Some (100 * Z.of_nat k);
               EndIndex := Some (100 * Z.of_nat k + 100);
               others := others filter |}).
Proof.
  assert (Hall : forall k f,
             calls (ListStream X fuel rfuel c accountID filter w) !! k = Some f ->
             100 * Z.of_nat k + 100 <= maxInt ->
             f = windowFilter filter k).
  { unfold ListStream. apply ListStream_loop_calls.
    - intros i f Hi. discriminate.
    - intros _. cbn [length]. split; reflexivity. }
  split; [|split; [|exact Hall]].
  - unfold ListStream.
    destruct (ListStream_loop_replay X rfuel c accountID filter fuel 0 100
                [] [] w) as (new & Hcalls & Hworld).
    rewrite Hcalls, Hworld. reflexivity.
  - intros Hfuel. destruct fuel as [|fuel']; [contradiction|].
    unfold ListStream.
    destruct (ListStream_loop_calls_first X rfuel c accountID filter
                fuel' 0 100 [] [] w) as [rest ->].
    reflexivity.
Qed.

End StreamClaims.

(** ** The theorems at work on the test doubles *)

(** The scenario "unavailable once" of the test tables. *)
Lemma unavailable_once_then_success_witness :
  exists w2,
    doRequest (Mock.externals false) 1 Mock.client "GET" "/x" None
      (Mock.start [Mock.statusOnly 503; inl (Mock.ok "")])
    = (Ret (inl (Mock.ok "")), w2)
    /\ doer w2 = []
    /\ length (trace w2) = 4%nat.
Proof.
  eexists.
  split; [|split];
    [ eapply (unavailable_once_then_success (Mock.externals false) 0
                Mock.client "GET" "/x" None);
      [reflexivity | reflexivity | reflexivity | reflexivity | cbn; lia]
    | reflexivity | reflexivity ].
Defined.

(** The scenario "unavailable twice" of the test tables: the third
    response of the script is never asked for. *)
Lemma unavailable_twice_witness :
  exists w2,
    doRequest (Mock.externals false) 1 Mock.client "GET" "/x" None
      (Mock.start [Mock.statusOnly 503; Mock.statusOnly 503; inl (Mock.ok "")])
    = (Ret (inr (ApiError Mock.serviceUnavailable)), w2)
    /\ doer w2 = [inl (Mock.ok "")]
    /\ length (trace w2) = 4%nat.
Proof.
  eexists.
  split; [|split];
    [ eapply (unavailable_twice (Mock.externals false) 0
                Mock.client "GET" "/x" None);
      reflexivity
    | reflexivity | reflexivity ].
Defined.

(** The scenario "rate limited" of the test tables, with
    [Retry-After: 2]. *)
Lemma rate_limited_then_success_witness :
  exists w3,
    doRequest (Mock.externals false) 2 Mock.client "GET" "/x" None
      (Mock.start [inl (Mock.response 429 "2" ""); inl (Mock.ok "")])
    = (Ret (inl (Mock.ok "")), w3)
    /\ doer w3 = []
    /\ length (trace w3) = 5%nat.
Proof.
  eexists.
  split; [|split];
    [ eapply (rate_limited_then_success (Mock.externals false) 0
                Mock.client "GET" "/x" None);
      [reflexivity | reflexivity | reflexivity | reflexivity
      | reflexivity | reflexivity | cbn; lia]
    | reflexivity | reflexivity ].
Defined.

(** A 429 whose [Retry-After] reads "soon". *)
Lemma rate_limit_header_unreadable_witness :
  exists w1,
    doRequest (Mock.externals false) 1 Mock.client "GET" "/x" None
      (Mock.start [inl (Mock.response 429 "soon" ""); inl (Mock.ok "")])
    = (Ret (inr (ExternalError "strconv.Atoi: invalid syntax")), w1)
    /\ doer w1 = [inl (Mock.ok "")]
    /\ length (trace w1) = 2%nat.
Proof.
  eexists.
  split; [|split];
    [ eapply (rate_limit_header_unreadable (Mock.externals false) 0
                Mock.client "GET" "/x" None);
      [reflexivity
      | left; split; [reflexivity | discriminate]
      | reflexivity | reflexivity]
    | reflexivity | reflexivity ].
Defined.

(** The scenario "unknown error status" of the test tables. *)
Lemma status_outside_2xx_witness :
  exists w1,
    doRequest (Mock.externals false) 1 Mock.client "GET" "/x" None
      (Mock.start [Mock.statusOnly 999])
    = (Ret (inr (ApiError {| api.Message := "unknown error reason";
                             api.StatusCode := 999 |})), w1).
Proof.
  eexists.
  edestruct (status_outside_2xx (Mock.externals false) 0
               Mock.client "GET" "/x" None
               (Mock.start [Mock.statusOnly 999]))
    as (_ & _ & Hunknown & _);
    [ reflexivity
    | left; split; [reflexivity | discriminate]
    | discriminate
    | right; reflexivity
    | apply Hunknown; reflexivity ].
Defined.

(** A match list in the body of a 201 response, and a body that the
    decoder refuses. *)
Lemma getInto_decodes_witness :
  (exists w1,
     getInto (Mock.externals false) Mock.decodeVals 1 Mock.client "/x" None
       (Mock.start [inl (Mock.response 201 "" "abc")])
     = (Ret (Some {| Matches := ["a"; "b"; "c"]%char |}, None), w1))
  /\ (exists w1,
        getInto (Mock.externals false) Mock.decodeVals 1 Mock.client "/x" None
          (Mock.start [inl (Mock.ok "!")])
        = (Ret (None, Some (ExternalError "json: malformed")), w1)).
Proof.
  split; eexists.
  - eapply (getInto_decodes (Mock.externals false) Mock.decodeVals 0
              Mock.client "/x" None _ _
              (Mock.start [inl (Mock.response 201 "" "abc")]) _ _ _
              (Mock.response 201 "" "abc"));
      [ reflexivity
      | left; split; [reflexivity | discriminate]
      | cbn; lia
      | reflexivity ].
  - eapply (getInto_decodes (Mock.externals false) Mock.decodeVals 0
              Mock.client "/x" None _ _
              (Mock.start [inl (Mock.ok "!")]) _ _ _ (Mock.ok "!"));
      [ reflexivity
      | left; split; [reflexivity | discriminate]
      | cbn; lia
      | reflexivity ].
Defined.

(** An account of 103 matches, served in a page of 100 and a page of
    3, on both streams. *)
Lemma stream_of_non_multiple_of_100_witness :
  (exists wEnd,
     ListStream (Mock.externals false) 2 1 Mock.client "acc" Mock.filter7
       (Mock.start [inl (Mock.ok Mock.fullPage); inl (Mock.ok Mock.shortPage)])
     = {| sent := map (fun m => {| MatchReference := m; Error := None |}) (map Some Mock.matches103)
                    ++ [{| MatchReference := None; Error := Some EOF |}];
          calls := map (windowFilter Mock.filter7) [0; 1]%nat;
          status := Returned;
          world := wEnd |})
  /\ (exists wEnd,
        GetMatchesByAccountStream (Mock.externals false) 2 1 Mock.client "acc"
          (Mock.start [inl (Mock.ok Mock.fullPage);
                       inl (Mock.ok Mock.shortPage)])
        = {| sent := map (fun m => {| MatchReference := Some m; Error := None |}) Mock.matches103
                       ++ [{| MatchReference := None; Error := Some EOF |}];
             calls := map windowRange [0; 1]%nat;
             status := Returned;
             world := wEnd |}).
Proof.
  split; eexists.
  - eapply (proj1 (stream_of_non_multiple_of_100 (Mock.externals false)
                     1 Mock.client "acc") 2%nat Mock.filter7
                  (map Some Mock.matches103)).
    + vm_compute. discriminate.
    + vm_compute. discriminate.
    + eexists. split; [reflexivity|].
      eexists. split; reflexivity.
    + vm_compute. lia.
  - eapply (proj2 (stream_of_non_multiple_of_100 (Mock.externals false)
                     1 Mock.client "acc") 2%nat Mock.matches103).
    + vm_compute. discriminate.
    + vm_compute. discriminate.
    + eexists. split; [reflexivity|].
      eexists. split; reflexivity.
    + vm_compute. lia.
Defined.

(** A full first page, then status 404 on the second page. *)
Lemma stream_error_on_second_page_witness :
  exists w2,
    ListStream (Mock.externals false) 2 1 Mock.client "acc" Mock.filter7
      (Mock.start [inl (Mock.ok Mock.fullPage); Mock.statusOnly 404;
                   inl (Mock.ok Mock.shortPage)])
    = {| sent := map (fun m => {| MatchReference := m; Error := None |})
                     (map Some (list_ascii_of_string Mock.fullPage))
                   ++ [{| MatchReference := None; Error := Some (ApiError Mock.notFound) |}];
         calls := [pointingAt Mock.filter7 0 100;
                   pointingAt Mock.filter7 100 200];
         status := Returned;
         world := w2 |}
    /\ doer w2 = [inl (Mock.ok Mock.shortPage)].
Proof.
  eexists. split.
  - eapply (stream_error_on_second_page (Mock.externals false) 2 1
              Mock.client "acc" Mock.filter7 _ _ _
              {| Matches := map Some (list_ascii_of_string Mock.fullPage) |});
      [reflexivity | reflexivity | reflexivity | lia].
  - reflexivity.
Defined.

(** The page [a, null, c]: the second value of the stream has both
    fields nil. *)
Lemma ListStream_forwards_nil_entries_witness :
  sent (ListStream (Mock.externals true) 2 1 Mock.client "acc" Mock.filter7
          (Mock.start [inl (Mock.ok "a_c")])) !! 1%nat
  = Some {| MatchReference := None; Error := None |}
  /\ ~ populatedOnce
        ({| MatchReference := None; Error := None |} : MatchStreamValue ascii).
Proof.
  destruct (ListStream_forwards_nil_entries (Mock.externals true) 2 1
              Mock.client "acc" Mock.filter7
              (Mock.start [inl (Mock.ok "a_c")])
              _
              {| Matches := [Some "a"%char; None; Some "c"%char] |}
              ltac:(discriminate) eq_refl)
    as (Hitems & Hnil & _).
  split.
  - apply (Hitems 1%nat None). reflexivity.
  - destruct (Hnil 1%nat eq_refl) as (v & Hv & _ & _ & Hbad).
    rewrite (Hitems 1%nat None eq_refl) in Hv. injection Hv as <-. exact Hbad.
Defined.

(** The caller's begin index 7 is overwritten, the queue filter kept:
    the two requests built ask for 0 to 100 and for 100 to 200. *)
Lemma ListStream_overwrites_window_witness :
  calls (ListStream (Mock.externals false) 2 1 Mock.client "acc" Mock.filter7
           (Mock.start [inl (Mock.ok Mock.fullPage);
                        inl (Mock.ok Mock.shortPage)]))
  = [ {| BeginIndex := Some 0; EndIndex := Some 100; others := [420] |};
      {| BeginIndex := Some 100; EndIndex := Some 200; others := [420] |} ]
  /\ omap (fun e => match e with
                    | CallNewRequest _ url _ => Some url
                    | _ => None
                    end)
          (trace (world (ListStream (Mock.externals false) 2 1 Mock.client
                           "acc" Mock.filter7
                           (Mock.start [inl (Mock.ok Mock.fullPage);
                                        inl (Mock.ok Mock.shortPage)]))))
     = [ "https://euw1.api.riotgames.com/lol/match/v4/matchlists/by-account/acc?beginIndex=0&endIndex=100";
         "https://euw1.api.riotgames.com/lol/match/v4/matchlists/by-account/acc?beginIndex=100&endIndex=200" ].
Proof.
  pose proof (ListStream_overwrites_window (Mock.externals false) 2 1
                Mock.client "acc" Mock.filter7
                (Mock.start [inl (Mock.ok Mock.fullPage);
                             inl (Mock.ok Mock.shortPage)]))
    as (Hworld & H0 & Hk).
  assert (Hcalls :
            calls (ListStream (Mock.externals false) 2 1 Mock.client "acc"
                     Mock.filter7
                     (Mock.start [inl (Mock.ok Mock.fullPage);
                                  inl (Mock.ok Mock.shortPage)]))
            = [ {| BeginIndex := Some 0; EndIndex := Some 100;
                   others := [420] |};
                {| BeginIndex := Some 100; EndIndex := Some 200;
                   others := [420] |} ]).
  { specialize (Hk 1%nat (pointingAt Mock.filter7 100 200) eq_refl
                   ltac:(vm_compute; discriminate)).
    specialize (H0 ltac:(discriminate)).
    apply list_eq. intros [|[|i]].
    - rewrite H0. reflexivity.
    - rewrite Hk at 1. reflexivity.
    - reflexivity. }
  split; [exact Hcalls|].
  rewrite Hworld, Hcalls. reflexivity.
Defined.

(** ** Further properties of the request engine *)

Lemma count_app p (l1 l2 : list Event) :
  count p (l1 ++ l2) = (count p l1 + count p l2)%nat.
Proof.
  induction l1 as [|e l1 IH]; cbn [count app]; [reflexivity|].
  rewrite IH. lia.
Qed.

Section EngineMore.

Context {T MR FO : Type}.
Variable X : Externals T MR FO.

(** X1. Failures before any status is seen. When [http.NewRequest]
    fails, [doRequest] returns its error without calling the transport.
    When the transport fails, on the first attempt or on the retry that
    follows a 503, [doRequest] returns the transport's error as it is
    and makes no further call. *)
Theorem failures_before_a_status fuel c method endpoint body (w : World T) :
  (forall err,
     NewRequest X method (apiURL X (Region c) endpoint) body = inr err ->
     doRequest X (S fuel) c method endpoint body w
     = (Ret (inr err),
        {| doer := doer w;
           trace := trace w ++ [CallNewRequest method
                                  (apiURL X (Region c) endpoint) body] |}))
  /\ (forall request w0 err w1,
        newRequest X c method endpoint body w = (inl request, w0) ->
        clientDo X request w0 = (inr err, w1) ->
        doRequest X (S fuel) c method endpoint body w = (Ret (inr err), w1)
        /\ trace w1 =
             trace w ++ [CallNewRequest method
                           (apiURL X (Region c) endpoint) body;
                         CallDo request])
  /\ (forall request w0 r1 w1 err w2,
        newRequest X c method endpoint body w = (inl request, w0) ->
        clientDo X request w0 = (inl r1, w1) ->
        http.StatusCode r1 = 503 ->
        clientDo X request (Sleep time.Second w1) = (inr err, w2) ->
        doRequest X (S fuel) c method endpoint body w = (Ret (inr err), w2)
        /\ trace w2 =
             trace w ++ [CallNewRequest method
                           (apiURL X (Region c) endpoint) body;
                         CallDo request; CallSleep 1000000000;
                         CallDo request]).
Proof.
  split; [|split].
  - intros err Hnew. cbn [doRequest]. unfold newRequest. rewrite Hnew.
    reflexivity.
  - intros request w0 err w1 Hnew Hdo. split.
    + cbn [doRequest]. rewrite Hnew, Hdo. reflexivity.
    + rewrite (clientDo_trace X _ _ _ _ Hdo).
      rewrite (newRequest_trace X _ _ _ _ _ _ _ Hnew).
      rewrite <- app_assoc. reflexivity.
  - intros request w0 r1 w1 err w2 Hnew Hdo H503 Hdo2. split.
    + cbn [doRequest]. rewrite Hnew, Hdo.
      unfold http.StatusServiceUnavailable. rewrite H503.
      cbn [Z.eqb Pos.eqb]. rewrite Hdo2. reflexivity.
    + rewrite (clientDo_trace X _ _ _ _ Hdo2), Sleep_trace.
      rewrite (clientDo_trace X _ _ _ _ Hdo).
      rewrite (newRequest_trace X _ _ _ _ _ _ _ Hnew).
      rewrite <- !app_assoc. reflexivity.
Qed.

(** X2. A response comes back from the engine only with a status in
    200..299, whatever the method; so [put] returns a nil error only
    when the body was encoded and the server answered the PUT with a
    status in 200..299. *)
Theorem success_means_2xx fuel c endpoint (w w' : World T) :
  (forall method body r,
     doRequest X fuel c method endpoint body w = (Ret (inl r), w') ->
     200 <= http.StatusCode r <= 299)
  /\ (forall (B : Type) (Encode : B -> string + error) (body : B),
        put X Encode fuel c endpoint body w = (Ret None, w') ->
        exists buf r,
          Encode body = inl buf
          /\ doRequest X fuel c "PUT" endpoint (Some buf) w
             = (Ret (inl r), w')
          /\ 200 <= http.StatusCode r <= 299).
Proof.
  split.
  - intros method body r Hrun. eapply doRequest_returns_2xx, Hrun.
  - intros B Encode body. unfold put.
    destruct (Encode body) as [buf|err]; [|discriminate].
    destruct (doRequest X fuel c "PUT" endpoint (Some buf) w)
      as [[[r|err]|] w1] eqn:Hrun; try discriminate.
    intros [= <-]. exists buf, r.
    split; [reflexivity|]. split; [exact Hrun|].
    eapply doRequest_returns_2xx, Hrun.
Qed.

(** X3. A 429 is never returned as an error: when the response that
    reaches the rate-limit check is a 429 whose [Retry-After] reads as
    [seconds], the call is worth what the re-invocation is worth after
    a sleep. The sleep lasts [seconds * 10^9] ns as long as
    [seconds] is at most 9223372036 in absolute value; with one second
    more the duration wraps to a negative number. *)
Theorem rate_limit_sleeps_and_reinvokes fuel c method endpoint body
    (w w0 w' : World T) request r seconds :
  newRequest X c method endpoint body w = (inl request, w0) ->
  settled X request w0 r w' ->
  http.StatusCode r = 429 ->
  Atoi X (http.Get (http.RespHeader r) "Retry-After") = inl seconds ->
  - 9223372036 <= seconds <= 9223372036 ->
  doRequest X (S fuel) c method endpoint body w
  = doRequest X fuel c method endpoint body (Sleep (seconds * 1000000000) w')
  /\ wrap64 (9223372037 * time.Second) < 0.
Proof.
  intros Hnew Hset H429 Hatoi Hrange. split; [|reflexivity].
  rewrite (doRequest_settled X fuel c method endpoint body w w0 w' request r
             Hnew Hset).
  rewrite H429, Hatoi. cbn [Z.eqb Pos.eqb].
  rewrite wrap64_small by (unfold time.Second, maxInt; lia).
  reflexivity.
Qed.

(** X4. No cap on rate-limit retries: when, from every world, the
    request can be built and its first attempt is answered by a 429
    with a readable [Retry-After], the call never returns; after any
    number [fuel] of invocations it is still pending and has sent the
    request [fuel] times. *)
Theorem rate_limited_for_ever c method endpoint body :
  (forall w : World T, exists request w0 r w1 seconds,
     newRequest X c method endpoint body w = (inl request, w0)
     /\ clientDo X request w0 = (inl r, w1)
     /\ http.StatusCode r = 429
     /\ Atoi X (http.Get (http.RespHeader r) "Retry-After") = inl seconds) ->
  forall fuel (w : World T),
    fst (doRequest X fuel c method endpoint body w) = Pending
    /\ exists added,
         trace (snd (doRequest X fuel c method endpoint body w))
         = trace w ++ added
         /\ count isDo added = fuel.
Proof.
  intros Hlimited. induction fuel as [|fuel IH]; intros w.
  - split; [reflexivity|]. exists []. cbn. rewrite app_nil_r. split; reflexivity.
  - destruct (Hlimited w) as (request & w0 & r & w1 & seconds
                              & Hnew & Hdo & H429 & Hatoi).
    assert (Hne : http.StatusCode r <> 503) by lia.
    rewrite (doRequest_first X fuel c method endpoint body w w0 w1 request r
               Hnew Hdo Hne).
    rewrite H429, Hatoi. cbn [Z.eqb Pos.eqb].
    destruct (IH (Sleep (wrap64 (seconds * time.Second)) w1))
      as [Hpending (added & Htrace & Hcount)].
    split; [exact Hpending|].
    rewrite Htrace, Sleep_trace.
    rewrite (clientDo_trace X _ _ _ _ Hdo).
    rewrite (newRequest_trace X _ _ _ _ _ _ _ Hnew).
    eexists. split; [rewrite <- !app_assoc; reflexivity|].
    cbn [app count isDo]. rewrite Hcount. reflexivity.
Qed.

End EngineMore.

Section EngineTrace.

Context {T MR FO : Type}.
Variable X : Externals T MR FO.

Ltac trace_leaf :=
  cbn [snd]; eexists; split;
  [ repeat match goal with
           | H : trace _ = _ |- _ => rewrite H; clear H
           end;
    rewrite <- ?app_assoc; reflexivity
  | rewrite ?count_app; cbn [count isNewRequest isDo isSleep app]; lia ].

(** X5. The budget of a call, whatever the transport does: a call of
    [fuel] invocations only appends to the trace; it builds at most
    [fuel] requests, makes at most two transport attempts per request
    built, and never sleeps more often than it has called the
    transport. *)
Theorem call_budget fuel c method endpoint body (w : World T) :
  exists added,
    trace (snd (doRequest X fuel c method endpoint body w))
    = trace w ++ added
    /\ (count isNewRequest added <= fuel
        /\ count isDo added <= 2 * count isNewRequest added
        /\ count isSleep added <= count isDo added)%nat.
Proof.
  revert w. induction fuel as [|fuel IH]; intros w.
  - exists []. cbn. rewrite app_nil_r. repeat split; lia.
  - cbn [doRequest].
    destruct (newRequest X c method endpoint body w) as [[request|err] w0]
      eqn:Hnew; apply newRequest_trace in Hnew; [|trace_leaf].
    destruct (clientDo X request w0) as [[r1|err] w1] eqn:Hdo;
      apply clientDo_trace in Hdo; [|trace_leaf].
    destruct (http.StatusCode r1 =? http.StatusServiceUnavailable).
    + destruct (clientDo X request (Sleep time.Second w1))
        as [[r2|err] w2] eqn:Hdo2;
        apply clientDo_trace in Hdo2; rewrite Sleep_trace in Hdo2;
        [|trace_leaf].
      destruct (http.StatusCode r2 =? http.StatusTooManyRequests).
      * destruct (Atoi X _) as [seconds|err]; [|trace_leaf].
        destruct (IH (Sleep (wrap64 (seconds * time.Second)) w2))
          as (added & Htrace & Hnew' & Hdo' & Hsleep').
        rewrite Sleep_trace in Htrace. trace_leaf.
      * destruct ((http.StatusCode r2 <? 200) || (http.StatusCode r2 >? 299));
          trace_leaf.
    + destruct (http.StatusCode r1 =? http.StatusTooManyRequests).
      * destruct (Atoi X _) as [seconds|err]; [|trace_leaf].
        destruct (IH (Sleep (wrap64 (seconds * time.Second)) w1))
          as (added & Htrace & Hnew' & Hdo' & Hsleep').
        rewrite Sleep_trace in Htrace. trace_leaf.
      * destruct ((http.StatusCode r1 <? 200) || (http.StatusCode r1 >? 299));
          trace_leaf.
Qed.

(** What [newRequest] adds to a request that comes without headers. *)
Lemma newRequest_headers c method endpoint body (w w0 : World T) request :
  (forall m u b raw, NewRequest X m u b = inl raw ->
                     http.ReqHeader raw = ∅) ->
  http.CanonicalMIMEHeaderKey (apiTokenHeaderKey X) <> "Accept" ->
  newRequest X c method endpoint body w = (inl request, w0) ->
  http.Get (http.ReqHeader request) (apiTokenHeaderKey X) = apiKey c
  /\ http.Get (http.ReqHeader request) "Accept" = "application/json".
Proof.
  intros Hraw Hkey. unfold newRequest.
  destruct (NewRequest X method (apiURL X (Region c) endpoint) body)
    as [raw|err] eqn:Hnew; [|discriminate].
  intros [= <- _]. cbn [http.ReqHeader].
  rewrite (Hraw _ _ _ _ Hnew). unfold http.Get, http.Add.
  change (http.CanonicalMIMEHeaderKey "Accept") with "Accept".
  rewrite !lookup_empty. cbn [default app]. split.
  - rewrite !lookup_insert_ne by congruence.
    rewrite lookup_insert_eq. reflexivity.
  - rewrite lookup_insert_eq.
    rewrite lookup_insert_ne by congruence.
    rewrite lookup_empty. reflexivity.
Qed.

Ltac events_ok Hreq :=
  repeat (apply Forall_cons; split; [first [exact I | exact Hreq]|]);
  first [apply Forall_nil_2 | assumption].

(** X6. Every request that a call hands to the transport is
    authenticated: given that [http.NewRequest] makes requests without
    headers and that the canonical form of the token header key (the
    form under which [Header.Add] files it) is not [Accept], each [Do]
    that the call adds to the trace carries the client's API key under
    the token header and [Accept: application/json]. *)
Theorem every_request_sent_is_authenticated fuel c method endpoint body
    (w : World T) :
  (forall m u b raw, NewRequest X m u b = inl raw ->
                     http.ReqHeader raw = ∅) ->
  http.CanonicalMIMEHeaderKey (apiTokenHeaderKey X) <> "Accept" ->
  exists added,
    trace (snd (doRequest X fuel c method endpoint body w))
    = trace w ++ added
    /\ Forall (fun e =>
                 match e with
                 | CallDo request =>
                     http.Get (http.ReqHeader request) (apiTokenHeaderKey X)
                     = apiKey c
                     /\ http.Get (http.ReqHeader request) "Accept"
                        = "application/json"
                 | _ => True
                 end) added.
Proof.
  intros Hraw Hkey. revert w.
  induction fuel as [|fuel IH]; intros w.
  - exists []. cbn. rewrite app_nil_r. split; [reflexivity | constructor].
  - cbn [doRequest].
    destruct (newRequest X c method endpoint body w) as [[request|err] w0]
      eqn:Hnew.
    2: { apply newRequest_trace in Hnew. cbn [snd]. eexists.
         split; [exact Hnew|]. repeat constructor. }
    pose proof (newRequest_headers c method endpoint body w w0 request
                  Hraw Hkey Hnew) as Hreq.
    apply newRequest_trace in Hnew.
    destruct (clientDo X request w0) as [[r1|err] w1] eqn:Hdo;
      apply clientDo_trace in Hdo.
    2: { cbn [snd]. eexists. split.
         - rewrite Hdo, Hnew, <- app_assoc. reflexivity.
         - events_ok Hreq. }
    destruct (http.StatusCode r1 =? http.StatusServiceUnavailable).
    + destruct (clientDo X request (Sleep time.Second w1))
        as [[r2|err] w2] eqn:Hdo2;
        apply clientDo_trace in Hdo2; rewrite Sleep_trace in Hdo2.
      2: { cbn [snd]. eexists. split.
           - rewrite Hdo2, Hdo, Hnew, <- !app_assoc. reflexivity.
           - events_ok Hreq. }
      destruct (http.StatusCode r2 =? http.StatusTooManyRequests).
      * destruct (Atoi X _) as [seconds|err].
        -- destruct (IH (Sleep (wrap64 (seconds * time.Second)) w2))
             as (added & Htrace & Hadded).
           rewrite Sleep_trace in Htrace. eexists. split.
           ++ rewrite Htrace, Hdo2, Hdo, Hnew, <- !app_assoc. reflexivity.
           ++ cbn [app]. events_ok Hreq.
        -- cbn [snd]. eexists. split.
           ++ rewrite Hdo2, Hdo, Hnew, <- !app_assoc. reflexivity.
           ++ events_ok Hreq.
      * destruct ((http.StatusCode r2 <? 200) || (http.StatusCode r2 >? 299));
          cbn [snd]; eexists;
          (split;
           [ rewrite Hdo2, Hdo, Hnew, <- !app_assoc; reflexivity
           | events_ok Hreq ]).
    + destruct (http.StatusCode r1 =? http.StatusTooManyRequests).
      * destruct (Atoi X _) as [seconds|err].
        -- destruct (IH (Sleep (wrap64 (seconds * time.Second)) w1))
             as (added & Htrace & Hadded).
           rewrite Sleep_trace in Htrace. eexists. split.
           ++ rewrite Htrace, Hdo, Hnew, <- !app_assoc. reflexivity.
           ++ cbn [app]. events_ok Hreq.
        -- cbn [snd]. eexists. split.
           ++ rewrite Hdo, Hnew, <- !app_assoc. reflexivity.
           ++ events_ok Hreq.
      * destruct ((http.StatusCode r1 <? 200) || (http.StatusCode r1 >? 299));
          cbn [snd]; eexists;
          (split;
           [ rewrite Hdo, Hnew, <- !app_assoc; reflexivity
           | events_ok Hreq ]).
Qed.

End EngineTrace.

(** ** Further properties of the decoding layer *)

Section DecodingMore.

Context {T MR FO : Type}.
Variable X : Externals T MR FO.

(** X7. What a finished [getInto] tells its caller. Either the engine
    failed: the error is the engine's, the target is untouched and the
    decoder was not run. Or the engine returned a response with a
    status in 200..299 and the target and the error are those of the
    decoder on its body; so a nil error means that a 2xx body was
    decoded without error. *)
Theorem getInto_outcome {A : Type} (Decode : string -> A -> A * option error)
    fuel c endpoint (target t : A) (e : option error) (w w' : World T) :
  getInto X Decode fuel c endpoint target w = (Ret (t, e), w') ->
  (exists err,
     get X fuel c endpoint w = (Ret (inr err), w')
     /\ e = Some err /\ t = target)
  \/ (exists r,
        get X fuel c endpoint w = (Ret (inl r), w')
        /\ 200 <= http.StatusCode r <= 299
        /\ Decode (http.Body r) target = (t, e)).
Proof.
  unfold getInto.
  destruct (get X fuel c endpoint w) as [[[r|err]|] w1] eqn:Hget;
    [| |discriminate].
  - intros Hdec. right. exists r.
    assert (Hw : w1 = w' /\ Decode (http.Body r) target = (t, e)).
    { destruct (Decode (http.Body r) target) as [t' [e'|]];
        injection Hdec as <- <- <-; split; reflexivity. }
    destruct Hw as [<- Hd].
    split; [reflexivity|]. split; [|exact Hd].
    unfold get in Hget. eapply doRequest_returns_2xx, Hget.
  - intros [= <- <- <-]. left. exists err. repeat split; reflexivity.
Qed.

(** X8. When the JSON encoder refuses the body, [post], [postInto] and
    [put] return its error at once: no request is built or sent (the
    world is unchanged, whatever the fuel) and the target of [postInto]
    is untouched. *)
Theorem encode_failure_sends_nothing {A B : Type}
    (Encode : B -> string + error) (Decode : string -> A -> A * option error)
    fuel c endpoint (body : B) (target : A) (w : World T) err :
  Encode body = inr err ->
  post X Encode fuel c endpoint body w = (Ret (inr err), w)
  /\ postInto X Encode Decode fuel c endpoint body target w
     = (Ret (target, Some err), w)
  /\ put X Encode fuel c endpoint body w = (Ret (Some err), w).
Proof.
  intros Henc. unfold postInto, put, post. rewrite Henc.
  repeat split; reflexivity.
Qed.

(** X9. [postInto] sends the encoded body in a POST and, when the
    engine returns a response (its status is then in 200..299), leaves
    in the target what the decoder makes of the response body, with
    the decoder's error as it is. *)
Theorem postInto_decodes {A B : Type}
    (Encode : B -> string + error) (Decode : string -> A -> A * option error)
    fuel c endpoint (body : B) (target : A) (w w' : World T) buf response :
  Encode body = inl buf ->
  doRequest X fuel c "POST" endpoint (Some buf) w = (Ret (inl response), w') ->
  200 <= http.StatusCode response <= 299
  /\ postInto X Encode Decode fuel c endpoint body target w
     = (Ret (Decode (http.Body response) target), w').
Proof.
  intros Henc Hrun. split; [eapply doRequest_returns_2xx, Hrun|].
  unfold postInto, post. rewrite Henc, Hrun.
  destruct (Decode (http.Body response) target) as [t' [e|]]; reflexivity.
Qed.

(** X10. What the typed wrappers return. [GetTimeline] (and
    [GetMatchTimeline]), whose target is a value, returns exactly one
    of a timeline and an error: after a failed decoding the partly
    filled timeline is dropped. [Get] (and [GetMatch]), whose target is
    a nil pointer, returns a nil match with every error, and returns a
    nil match with a nil error when the decoder leaves the pointer nil
    on a 2xx body. *)
Theorem results_of_Get_and_GetTimeline fuel c id (w w' : World T) :
  (forall (MT : Type) endpointOf
          (Decode : string -> MT -> MT * option error) zero t e,
     GetTimeline X endpointOf Decode zero fuel c id w = (Ret (t, e), w') ->
     (is_Some t /\ e = None) \/ (t = None /\ is_Some e))
  /\ (forall (M : Type) endpointOf
             (Decode : string -> option M -> option M * option error) m e,
        Get X endpointOf Decode fuel c id w = (Ret (m, e), w') ->
        is_Some e -> m = None)
  /\ (forall (M : Type) endpointOf
             (Decode : string -> option M -> option M * option error) r,
        get X fuel c (endpointOf id) w = (Ret (inl r), w') ->
        Decode (http.Body r) None = (None, None) ->
        Get X endpointOf Decode fuel c id w = (Ret (None, None), w')).
Proof.
  split; [|split].
  - intros MT endpointOf Decode zero t e. unfold GetTimeline.
    destruct (getInto X Decode fuel c (endpointOf id) zero w)
      as [[[t' [e'|]]|] w1]; [| |discriminate].
    + intros [= <- <- _]. right. split; [reflexivity | eexists; reflexivity].
    + intros [= <- <- _]. left. split; [eexists; reflexivity | reflexivity].
  - intros M endpointOf Decode m e. unfold Get.
    destruct (getInto X Decode fuel c (endpointOf id) None w)
      as [[[m' [e'|]]|] w1]; [| |discriminate].
    + intros [= <- _ _] _. reflexivity.
    + intros [= _ <- _] [x Hx]. discriminate Hx.
  - intros M endpointOf Decode r Hget Hdec. unfold Get, getInto.
    rewrite Hget, Hdec. reflexivity.
Qed.

End DecodingMore.

(** ** Further properties of the match streams *)

Lemma ceilDiv_100_exact n : (n mod 100 = 0 -> ceilDiv n 100 = n / 100)%nat.
Proof.
  intros Hr. unfold ceilDiv.
  pose proof (Nat.div_mod_eq n 100) as Hn.
  symmetry. apply (Nat.div_unique _ 100 _ 99); lia.
Qed.

Section StreamMore.

Context {T MR FO : Type}.
Variable X : Externals T MR FO.

(** [n] full pages of the account, served from the page [k] on, take
    the loop of [ListStream] [n] iterations further. *)
Lemma ListStream_loop_full_pages rfuel c accountID filter
    (all : list (option MR)) :
  forall (n k fuel : nat) cMatches log (w w' : World T),
    (100 * (k + n) <= length all)%nat ->
    100 * Z.of_nat (k + n) + 100 <= maxInt ->
    serves (fun b e => List X rfuel c accountID (pointingAt filter b e))
           all k n w w' ->
    ListStream_loop X (n + fuel) rfuel c accountID filter
      (100 * Z.of_nat k) (100 * Z.of_nat k + 100) cMatches log w
    = ListStream_loop X fuel rfuel c accountID filter
        (100 * Z.of_nat (k + n)) (100 * Z.of_nat (k + n) + 100)
        (cMatches ++ map itemValue (take (100 * n) (drop (100 * k) all)))
        (log ++ map (windowFilter filter) (seq k n)) w'.
Proof.
  induction n as [|n IH]; intros k fuel cMatches log w w' Hlen Hmax Hs.
  - cbn [serves] in Hs. subst w'.
    replace (k + 0)%nat with k by lia.
    rewrite Nat.mul_0_r, take_0. cbn [seq map]. rewrite !app_nil_r.
    reflexivity.
  - cbn [serves] in Hs. destruct Hs as (w1 & Hfetch & Hs).
    cbn [Nat.add ListStream_loop]. rewrite Hfetch. cbn [Matches].
    assert (Hpage : length (take 100 (drop (100 * k) all)) = 100%nat)
      by (rewrite length_take, length_drop; lia).
    rewrite Hpage. change (Z.of_nat 100 <? 100) with false. cbn iota.
    destruct (next_window k ltac:(lia)) as [-> ->].
    rewrite (IH (S k) fuel _ _ w1 w' ltac:(lia) ltac:(lia) Hs).
    replace (S k + n)%nat with (k + S n)%nat by lia.
    f_equal.
    + rewrite <- app_assoc. f_equal. rewrite <- map_app. f_equal.
      replace (100 * S k)%nat with (100 * k + 100)%nat by lia.
      rewrite <- drop_drop, take_take_drop. f_equal. lia.
    + rewrite <- app_assoc. reflexivity.
Qed.

(** X11. An account whose number of matches is a multiple of 100
    (none at all included) costs one round trip more than it has full
    pages: when every page fetch serves its window, the last fetch
    returns an empty page, and each stream ends after
    [count / 100 + 1] fetches with every match sent once, in order,
    before the one [io.EOF] value. *)
Theorem stream_of_multiple_of_100 rfuel c accountID :
  (forall fuel filter (all : list (option MR)) (w wEnd : World T),
     (length all mod 100 = 0)%nat ->
     Z.of_nat (length all) + 100 <= maxInt ->
     serves (fun b e => List X rfuel c accountID (pointingAt filter b e))
            all 0 (ceilDiv (length all) 100 + 1) w wEnd ->
     (ceilDiv (length all) 100 + 1 <= fuel)%nat ->
     ListStream X fuel rfuel c accountID filter w
     = {| sent := map (fun m => {| MatchReference := m; Error := None |}) all ++ [{| MatchReference := None; Error := Some EOF |}];
          calls := map (windowFilter filter)
                       (seq 0 (ceilDiv (length all) 100 + 1));
          status := Returned;
          world := wEnd |}
     /\ take 100 (drop (100 * ceilDiv (length all) 100) all) = [])
  /\ (forall fuel (all : list MR) (w wEnd : World T),
        (length all mod 100 = 0)%nat ->
        Z.of_nat (length all) + 100 <= maxInt ->
        serves (GetMatchesByAccount X rfuel c accountID)
               all 0 (ceilDiv (length all) 100 + 1) w wEnd ->
        (ceilDiv (length all) 100 + 1 <= fuel)%nat ->
        GetMatchesByAccountStream X fuel rfuel c accountID w
        = {| sent := map (fun m => {| MatchReference := Some m; Error := None |}) all ++ [{| MatchReference := None; Error := Some EOF |}];
             calls := map windowRange (seq 0 (ceilDiv (length all) 100 + 1));
             status := Returned;
             world := wEnd |}
        /\ take 100 (drop (100 * ceilDiv (length all) 100) all) = []).
Proof.
  assert (Hempty : forall (E : Type) (all : list E),
             (length all mod 100 = 0)%nat ->
             take 100 (drop (100 * (length all / 100)) all) = []).
  { intros E all Hr. pose proof (Nat.div_mod_eq (length all) 100) as Hn.
    rewrite drop_ge by lia. reflexivity. }
  split.
  - intros fuel filter all w wEnd Hr Hmax Hs Hfuel.
    rewrite (ceilDiv_100_exact _ Hr) in *.
    replace (length all / 100 + 1)%nat with (S (length all / 100)) in * by lia.
    split; [|apply Hempty, Hr].
    unfold ListStream.
    apply (ListStream_loop_serves X rfuel c accountID filter all
             (length all / 100) 0 fuel [] [] w wEnd);
      [reflexivity | exact Hmax | exact Hs | exact Hfuel].
  - intros fuel all w wEnd Hr Hmax Hs Hfuel.
    rewrite (ceilDiv_100_exact _ Hr) in *.
    replace (length all / 100 + 1)%nat with (S (length all / 100)) in * by lia.
    split; [|apply Hempty, Hr].
    unfold GetMatchesByAccountStream.
    apply (GetMatchesByAccountStream_loop_serves X rfuel c accountID all
             (length all / 100) 0 fuel [] [] w wEnd);
      [reflexivity | exact Hmax | exact Hs | exact Hfuel].
Qed.

(** X12. A fetch error after any number of full pages: when the first
    [k] page fetches serve full pages and the next one returns an
    error, [ListStream] sends the [100 k] matches of these pages in
    order, then one terminal value with that error, and ends after
    [k + 1] fetches. *)
Theorem stream_error_after_full_pages fuel rfuel c accountID filter
    (all : list (option MR)) (k : nat) (w w1 w2 : World T) err :
  (100 * k <= length all)%nat ->
  100 * Z.of_nat k + 100 <= maxInt ->
  serves (fun b e => List X rfuel c accountID (pointingAt filter b e))
         all 0 k w w1 ->
  List X rfuel c accountID (windowFilter filter k) w1 = (Ret (inr err), w2) ->
  (k + 1 <= fuel)%nat ->
  ListStream X fuel rfuel c accountID filter w
  = {| sent := map (fun m => {| MatchReference := m; Error := None |}) (take (100 * k) all) ++ [{| MatchReference := None; Error := Some err |}];
       calls := map (windowFilter filter) (seq 0 (k + 1));
       status := Returned;
       world := w2 |}.
Proof.
  intros Hlen Hmax Hs Herr Hfuel.
  replace fuel with (k + S (fuel - (k + 1)))%nat by lia.
  unfold ListStream.
  rewrite (ListStream_loop_full_pages rfuel c accountID filter all
             k 0 _ [] [] w w1 ltac:(lia) ltac:(exact Hmax) Hs).
  cbn [Nat.add ListStream_loop]. unfold windowFilter in Herr.
  rewrite Herr. cbn [app drop]. rewrite Nat.mul_0_r. cbn [drop].
  rewrite seq_app, map_app. reflexivity.
Qed.

(** X13. A nil match list after any number of full pages: when the
    first [k] page fetches serve full pages and the next one returns a
    nil list with a nil error (the JSON body [null]), the goroutine of
    [ListStream] panics on [matches.Matches]: the [100 k] matches were
    sent and no terminal value follows them. *)
Theorem stream_nil_list_after_full_pages fuel rfuel c accountID filter
    (all : list (option MR)) (k : nat) (w w1 w2 : World T) :
  (100 * k <= length all)%nat ->
  100 * Z.of_nat k + 100 <= maxInt ->
  serves (fun b e => List X rfuel c accountID (pointingAt filter b e))
         all 0 k w w1 ->
  List X rfuel c accountID (windowFilter filter k) w1 = (Ret (inl None), w2) ->
  (k + 1 <= fuel)%nat ->
  ListStream X fuel rfuel c accountID filter w
  = {| sent := map (fun m => {| MatchReference := m; Error := None |}) (take (100 * k) all);
       calls := map (windowFilter filter) (seq 0 (k + 1));
       status := Panicked;
       world := w2 |}.
Proof.
  intros Hlen Hmax Hs Hnil Hfuel.
  replace fuel with (k + S (fuel - (k + 1)))%nat by lia.
  unfold ListStream.
  rewrite (ListStream_loop_full_pages rfuel c accountID filter all
             k 0 _ [] [] w w1 ltac:(lia) ltac:(exact Hmax) Hs).
  cbn [Nat.add ListStream_loop]. unfold windowFilter in Hnil.
  rewrite Hnil. cbn [app drop]. rewrite Nat.mul_0_r. cbn [drop].
  rewrite seq_app, map_app. reflexivity.
Qed.

End StreamMore.

Section StreamInvariants.

Context {T MR FO : Type}.
Variable X : Externals T MR FO.




(** The log of the page fetches of the loop of
    [GetMatchesByAccountStream]. *)
Lemma GetMatchesByAccountStream_loop_calls rfuel c accountID :
  forall fuel start cMatches log (w : World T),
    (forall i r, log !! i = Some r ->
                 100 * Z.of_nat i + 100 <= maxInt ->
                 r = windowRange i) ->
    (100 * Z.of_nat (length log) + 100 <= maxInt ->
     start = 100 * Z.of_nat (length log)) ->
    forall k r,
      calls (GetMatchesByAccountStream_loop X fuel rfuel c accountID
               start cMatches log w) !! k = Some r ->
      100 * Z.of_nat k + 100 <= maxInt ->
      r = windowRange k.
Proof.
  induction fuel as [|fuel IH]; intros start cMatches log w Hlog Hcur;
    cbn [GetMatchesByAccountStream_loop]; [exact Hlog|].
  assert (Hlog' : forall i r,
             (log ++ [(start, wrap64 (start + 100))]) !! i = Some r ->
             100 * Z.of_nat i + 100 <= maxInt ->
             r = windowRange i).
  { intros i r Hi Hmax.
    destruct (decide (i < length log)%nat) as [Hlt|Hge].
    - rewrite lookup_app_l in Hi by exact Hlt. apply Hlog; assumption.
    - rewrite lookup_app_r in Hi by lia.
      destruct (i - length log)%nat as [|j] eqn:Hj; [|discriminate].
      assert (i = length log) by lia. subst i.
      rewrite (Hcur Hmax) in Hi. injection Hi as <-.
      rewrite wrap64_small by (unfold maxInt in *; lia). reflexivity. }
  destruct (GetMatchesByAccount X rfuel c accountID start
              (wrap64 (start + 100)) w)
    as [[[[m|]|err]|] w1]; cbn [calls]; try exact Hlog'.
  destruct (Z.of_nat (length (Matches m)) <? 100); cbn [calls];
    [exact Hlog'|].
  apply IH; [exact Hlog'|].
  rewrite length_app. cbn [length]. intros Hmax.
  rewrite Hcur by lia.
  replace (length log + 1)%nat with (S (length log)) in * by lia.
  apply next_window. exact Hmax.
Qed.

(** X15. The windows of [GetMatchesByAccountStream]: its page fetches
    are the calls of [GetMatchesByAccount] on the ranges of its log, in
    order (they lead from the world at the start to the world at the
    end), and the page fetch [k] asks for the range from [100 k] to
    [100 k + 100], as long as that window fits an [int]; the first one
    asks for 0 to 100. *)
Theorem GetMatchesByAccountStream_windows fuel rfuel c accountID
    (w : World T) :
  world (GetMatchesByAccountStream X fuel rfuel c accountID w)
  = fold_left
      (fun w' r =>
         snd (GetMatchesByAccount X rfuel c accountID (fst r) (snd r) w'))
      (calls (GetMatchesByAccountStream X fuel rfuel c accountID w)) w
  /\ (forall k r,
        calls (GetMatchesByAccountStream X fuel rfuel c accountID w) !! k
        = Some r ->
        100 * Z.of_nat k + 100 <= maxInt ->
        r = (100 * Z.of_nat k, 100 * Z.of_nat k + 100)).
Proof.
  split.
  - unfold GetMatchesByAccountStream.
    destruct (GetMatchesByAccountStream_loop_replay X rfuel c accountID fuel 0
                [] [] w) as (new & Hcalls & Hworld).
    rewrite Hcalls, Hworld. reflexivity.
  - unfold GetMatchesByAccountStream.
    apply GetMatchesByAccountStream_loop_calls.
    + intros i r0 Hi. discriminate.
    + intros _. reflexivity.
Qed.

End StreamInvariants.

Section StreamsAgree.

Context {T MR FO : Type}.
Variable X : Externals T MR FO.

Lemma streams_loops_agree rfuel c accountID filter :
  (forall b e (w : World T),
     List X rfuel c accountID (pointingAt filter b e) w
     = (asListResult (fst (GetMatchesByAccount X rfuel c accountID b e w)),
        snd (GetMatchesByAccount X rfuel c accountID b e w))) ->
  forall fuel start cMatches log (w : World T),
    ListStream_loop X fuel rfuel c accountID filter
      start (wrap64 (start + 100)) cMatches
      (map (fun r => pointingAt filter (fst r) (snd r)) log) w
    = let run := GetMatchesByAccountStream_loop X fuel rfuel c accountID
                   start cMatches log w in
      {| sent := sent run;
         calls := map (fun r => pointingAt filter (fst r) (snd r)) (calls run);
         status := status run;
         world := world run |}.
Proof.
  intros Hsame.
  induction fuel as [|fuel IH]; intros start cMatches log w;
    cbn [ListStream_loop GetMatchesByAccountStream_loop]; [reflexivity|].
  rewrite Hsame.
  destruct (GetMatchesByAccount X rfuel c accountID start
              (wrap64 (start + 100)) w)
    as [[[[m|]|err]|] w1]; cbn [fst snd asListResult];
    cbn [sent calls status world]; rewrite ?map_app; try reflexivity.
  cbn [pointers Matches]. rewrite length_map, map_map.
  destruct (Z.of_nat (length (Matches m)) <? 100);
    cbn [sent calls status world]; rewrite ?map_app; [reflexivity|].
  specialize (IH (wrap64 (start + 100))
                 (cMatches ++ map (fun m => itemValue (Some m)) (Matches m))
                 (log ++ [(start, wrap64 (start + 100))]) w1).
  rewrite map_app in IH. exact IH.
Qed.

(** X16. The two streams are the same algorithm: when [List], asked
    for a window through the filter, and [GetMatchesByAccount], asked
    for the same window, fetch the same page (pointers to the same
    matches, the same error, the same world), [ListStream] and
    [GetMatchesByAccountStream] send the same values, ask for the same
    windows, end in the same state and leave the same world, for every
    fuel and with the wrap-around of [int] included. *)
Theorem streams_agree rfuel c accountID filter :
  (forall b e (w : World T),
     List X rfuel c accountID (pointingAt filter b e) w
     = (asListResult (fst (GetMatchesByAccount X rfuel c accountID b e w)),
        snd (GetMatchesByAccount X rfuel c accountID b e w))) ->
  forall fuel (w : World T),
    ListStream X fuel rfuel c accountID filter w
    = {| sent := sent (GetMatchesByAccountStream X fuel rfuel c accountID w);
         calls := map (fun r => pointingAt filter (fst r) (snd r))
                      (calls (GetMatchesByAccountStream X fuel rfuel c
                                accountID w));
         status :=
           status (GetMatchesByAccountStream X fuel rfuel c accountID w);
         world :=
           world (GetMatchesByAccountStream X fuel rfuel c accountID w) |}.
Proof.
  intros Hsame fuel w. unfold ListStream, GetMatchesByAccountStream.
  apply (streams_loops_agree rfuel c accountID filter Hsame fuel 0 [] [] w).
Qed.

End StreamsAgree.

(** ** The further properties at work on the test doubles *)

(** A transport error on the first attempt, and on the retry. *)
Lemma failures_before_a_status_witness :
  (exists w1,
     doRequest (Mock.externals false) 1 Mock.client "GET" "/x" None
       (Mock.start [inr (ExternalError "dial tcp: timeout"); inl (Mock.ok "")])
     = (Ret (inr (ExternalError "dial tcp: timeout")), w1)
     /\ doer w1 = [inl (Mock.ok "")])
  /\ (exists w2,
        doRequest (Mock.externals false) 1 Mock.client "GET" "/x" None
          (Mock.start [Mock.statusOnly 503;
                       inr (ExternalError "dial tcp: timeout")])
        = (Ret (inr (ExternalError "dial tcp: timeout")), w2)
        /\ length (trace w2) = 4%nat).
Proof.
  destruct (failures_before_a_status (Mock.externals false) 0 Mock.client
              "GET" "/x" None
              (Mock.start [inr (ExternalError "dial tcp: timeout");
                           inl (Mock.ok "")])) as (_ & Hfirst & _).
  destruct (failures_before_a_status (Mock.externals false) 0 Mock.client
              "GET" "/x" None
              (Mock.start [Mock.statusOnly 503;
                           inr (ExternalError "dial tcp: timeout")]))
    as (_ & _ & Hretry).
  split; eexists.
  - split; [eapply Hfirst; reflexivity | reflexivity].
  - split; [eapply Hretry; reflexivity | reflexivity].
Defined.

(** A PUT answered with 200. *)
Lemma success_means_2xx_witness :
  exists buf r,
    MockMore.encodeName "name" = inl buf
    /\ doRequest (Mock.externals false) 1 Mock.client "PUT" "/t"
         (Some buf) (Mock.start [inl (Mock.ok "")])
       = (Ret (inl r),
          snd (put (Mock.externals false) MockMore.encodeName 1 Mock.client
                 "/t" "name" (Mock.start [inl (Mock.ok "")])))
    /\ 200 <= http.StatusCode r <= 299.
Proof.
  apply (proj2 (success_means_2xx (Mock.externals false) 1 Mock.client "/t"
                  (Mock.start [inl (Mock.ok "")]) _)
               string MockMore.encodeName "name").
  reflexivity.
Defined.

(** [Retry-After: 3]: a sleep of three seconds, then the
    re-invocation. *)
Lemma rate_limit_sleeps_and_reinvokes_witness :
  exists w1,
    doRequest (Mock.externals false) 2 Mock.client "GET" "/x" None
      (Mock.start [inl (Mock.response 429 "3" ""); Mock.statusOnly 404])
    = doRequest (Mock.externals false) 1 Mock.client "GET" "/x" None
        (Sleep 3000000000 w1)
    /\ doer w1 = [Mock.statusOnly 404].
Proof.
  eexists. split.
  - eapply (rate_limit_sleeps_and_reinvokes (Mock.externals false) 1
              Mock.client "GET" "/x" None _ _ _ _ _ 3);
      [ reflexivity
      | left; split; [reflexivity | discriminate]
      | reflexivity | reflexivity | lia ].
  - reflexivity.
Defined.

(** The transport that always answers 429: still pending after 5
    invocations. *)
Lemma rate_limited_for_ever_witness :
  fst (doRequest MockMore.alwaysLimited 5 Mock.client "GET" "/x" None
         {| doer := tt; trace := [] |})
  = Pending.
Proof.
  refine (proj1 (rate_limited_for_ever MockMore.alwaysLimited Mock.client
                   "GET" "/x" None _ 5%nat {| doer := tt; trace := [] |})).
  intros [t tr]. do 5 eexists.
  split; [reflexivity|]. split; [reflexivity|].
  split; reflexivity.
Defined.

(** The requests of the scenario "unavailable once" carry the key. *)
Lemma every_request_sent_is_authenticated_witness :
  exists added,
    trace (snd (doRequest (Mock.externals false) 1 Mock.client "GET" "/x" None
                  (Mock.start [Mock.statusOnly 503; inl (Mock.ok "")])))
    = [] ++ added
    /\ Forall (fun e =>
                 match e with
                 | CallDo request =>
                     http.Get (http.ReqHeader request) "X-Riot-Token"
                     = "API_KEY"
                     /\ http.Get (http.ReqHeader request) "Accept"
                        = "application/json"
                 | _ => True
                 end) added.
Proof.
  apply (every_request_sent_is_authenticated (Mock.externals false) 1
           Mock.client "GET" "/x" None
           (Mock.start [Mock.statusOnly 503; inl (Mock.ok "")])).
  - intros m u b raw [= <-]. reflexivity.
  - discriminate.
Defined.

(** A body that the decoder refuses. *)
Lemma getInto_outcome_witness :
  exists r w1,
    get (Mock.externals false) 1 Mock.client "/x"
      (Mock.start [inl (Mock.ok "!")])
    = (Ret (inl r), w1)
    /\ 200 <= http.StatusCode r <= 299
    /\ Mock.decodeVals (http.Body r) None
       = (None, Some (ExternalError "json: malformed")).
Proof.
  edestruct (getInto_outcome (Mock.externals false) Mock.decodeVals 1
               Mock.client "/x" None None
               (Some (ExternalError "json: malformed"))
               (Mock.start [inl (Mock.ok "!")]))
    as [(err & Hget & _) | (r & Hget & H2xx & Hdec)];
    [ reflexivity
    | vm_compute in Hget; discriminate Hget
    | exists r; eexists; split; [exact Hget | split; [exact H2xx | exact Hdec]] ].
Defined.

(** The empty name is refused by the encoder: nothing is sent. *)
Lemma encode_failure_sends_nothing_witness :
  put (Mock.externals false) MockMore.encodeName 1 Mock.client "/t" ""
    (Mock.start [inl (Mock.ok "")])
  = (Ret (Some (ExternalError "json: unsupported value")),
     Mock.start [inl (Mock.ok "")]).
Proof.
  apply (encode_failure_sends_nothing (Mock.externals false)
           MockMore.encodeName MockMore.decodeName 1 Mock.client "/t" "" ""
           (Mock.start [inl (Mock.ok "")])).
  reflexivity.
Defined.

(** A POST answered with a body. *)
Lemma postInto_decodes_witness :
  exists w1,
    postInto (Mock.externals false) MockMore.encodeName MockMore.decodeName
      1 Mock.client "/codes" "name" "" (Mock.start [inl (Mock.ok "CODE")])
    = (Ret ("CODE", None), w1).
Proof.
  eexists.
  eapply (postInto_decodes (Mock.externals false) MockMore.encodeName
            MockMore.decodeName 1 Mock.client "/codes" "name" ""
            (Mock.start [inl (Mock.ok "CODE")]) _ "name" (Mock.ok "CODE"));
    reflexivity.
Defined.

(** The body [null]: a nil match and a nil error from [Get]. *)
Lemma results_of_Get_and_GetTimeline_witness :
  exists w1,
    Get (Mock.externals false) MockMore.endpointGetMatch MockMore.decodeMatch
      1 Mock.client 42 (Mock.start [inl (Mock.ok "null")])
    = (Ret (None, None), w1).
Proof.
  eexists.
  eapply (proj2 (proj2 (results_of_Get_and_GetTimeline (Mock.externals false)
                          1 Mock.client 42
                          (Mock.start [inl (Mock.ok "null")]) _))
                string MockMore.endpointGetMatch MockMore.decodeMatch
                (Mock.ok "null"));
    reflexivity.
Defined.

(** An account of exactly 100 matches: a full page, then an empty
    one. *)
Lemma stream_of_multiple_of_100_witness :
  exists wEnd,
    ListStream (Mock.externals false) 2 1 Mock.client "acc" Mock.filter7
      (Mock.start [inl (Mock.ok Mock.fullPage); inl (Mock.ok "")])
    = {| sent := map (fun m => {| MatchReference := m; Error := None |})
                     (map Some (list_ascii_of_string Mock.fullPage))
                   ++ [{| MatchReference := None; Error := Some EOF |}];
         calls := map (windowFilter Mock.filter7) [0; 1]%nat;
         status := Returned;
         world := wEnd |}.
Proof.
  eexists.
  eapply (proj1 (stream_of_multiple_of_100 (Mock.externals false)
                   1 Mock.client "acc") 2%nat Mock.filter7
                (map Some (list_ascii_of_string Mock.fullPage))).
  - reflexivity.
  - vm_compute. discriminate.
  - eexists. split; [reflexivity|].
    eexists. split; reflexivity.
  - vm_compute. lia.
Defined.

(** One full page, then status 404. *)
Lemma stream_error_after_full_pages_witness :
  exists w2,
    ListStream (Mock.externals false) 3 1 Mock.client "acc" Mock.filter7
      (Mock.start [inl (Mock.ok Mock.fullPage); Mock.statusOnly 404])
    = {| sent := map (fun m => {| MatchReference := m; Error := None |}) (take 100 (map Some Mock.matches103))
                   ++ [{| MatchReference := None; Error := Some (ApiError Mock.notFound) |}];
         calls := map (windowFilter Mock.filter7) [0; 1]%nat;
         status := Returned;
         world := w2 |}.
Proof.
  eexists.
  eapply (stream_error_after_full_pages (Mock.externals false) 3 1
            Mock.client "acc" Mock.filter7 (map Some Mock.matches103) 1).
  - vm_compute. lia.
  - vm_compute. discriminate.
  - eexists. split; reflexivity.
  - reflexivity.
  - lia.
Defined.

(** One full page, then the body [null]. *)
Lemma stream_nil_list_after_full_pages_witness :
  exists w2,
    ListStream (Mock.externals false) 3 1 Mock.client "acc" Mock.filter7
      (Mock.start [inl (Mock.ok Mock.fullPage); inl (Mock.ok "null")])
    = {| sent := map (fun m => {| MatchReference := m; Error := None |}) (take 100 (map Some Mock.matches103));
         calls := map (windowFilter Mock.filter7) [0; 1]%nat;
         status := Panicked;
         world := w2 |}.
Proof.
  eexists.
  eapply (stream_nil_list_after_full_pages (Mock.externals false) 3 1
            Mock.client "acc" Mock.filter7 (map Some Mock.matches103) 1).
  - vm_compute. lia.
  - vm_compute. discriminate.
  - eexists. split; reflexivity.
  - reflexivity.
  - lia.
Defined.

(** The second fetch of the old stream asks for 100 to 200, in the
    log and in the requests built. *)
Lemma GetMatchesByAccountStream_windows_witness :
  calls (GetMatchesByAccountStream (Mock.externals false) 2 1 Mock.client
           "acc"
           (Mock.start [inl (Mock.ok Mock.fullPage);
                        inl (Mock.ok Mock.shortPage)])) !! 1%nat
  = Some (100, 200)
  /\ omap (fun e => match e with
                    | CallNewRequest _ url _ => Some url
                    | _ => None
                    end)
          (trace (world (GetMatchesByAccountStream (Mock.externals false) 2 1
                           Mock.client "acc"
                           (Mock.start [inl (Mock.ok Mock.fullPage);
                                        inl (Mock.ok Mock.shortPage)]))))
     = [ "https://euw1.api.riotgames.com/lol/match/v4/matchlists/by-account/acc?beginIndex=0&endIndex=100";
         "https://euw1.api.riotgames.com/lol/match/v4/matchlists/by-account/acc?beginIndex=100&endIndex=200" ].
Proof.
  pose proof (GetMatchesByAccountStream_windows (Mock.externals false) 2 1
                Mock.client "acc"
                (Mock.start [inl (Mock.ok Mock.fullPage);
                             inl (Mock.ok Mock.shortPage)]))
    as (Hworld & Hk).
  split.
  - rewrite (Hk 1%nat (100, 200) eq_refl ltac:(vm_compute; discriminate))
      at 1.
    reflexivity.
  - rewrite Hworld. reflexivity.
Defined.

(** The two page fetches of the test doubles agree: same URL, same
    transport, and decoders that read the same matches. *)
Lemma mock_fetches_agree b e (w : World (list (http.Response + error))) :
  List (Mock.externals false) 1 Mock.client "acc"
    (pointingAt Mock.filter7 b e) w
  = (asListResult
       (fst (GetMatchesByAccount (Mock.externals false) 1 Mock.client "acc"
               b e w)),
     snd (GetMatchesByAccount (Mock.externals false) 1 Mock.client "acc"
            b e w)).
Proof.
  unfold List, GetMatchesByAccount, getInto, get.
  cbn [GetQueryParams endpointMatchesQuery endpointMatchesRange
       DecodePtrs DecodeVals Mock.externals pointingAt BeginIndex EndIndex].
  cbn [String.eqb append].
  cbn [Ascii.eqb Bool.eqb].
  set (run := doRequest _ _ _ _ _ _ _).
  destruct run as [[[r|err]|] w1]; try reflexivity.
  unfold Mock.decodePtrs, Mock.decodeVals.
  destruct (String.eqb (http.Body r) "null"); [reflexivity|].
  destruct (String.prefix "!" (http.Body r)); reflexivity.
Qed.

(** The two streams on the 103 matches. *)
Lemma streams_agree_witness :
  sent (ListStream (Mock.externals false) 2 1 Mock.client "acc" Mock.filter7
          (Mock.start [inl (Mock.ok Mock.fullPage);
                       inl (Mock.ok Mock.shortPage)]))
  = sent (GetMatchesByAccountStream (Mock.externals false) 2 1 Mock.client
            "acc"
            (Mock.start [inl (Mock.ok Mock.fullPage);
                         inl (Mock.ok Mock.shortPage)])).
Proof.
  rewrite (streams_agree (Mock.externals false) 1 Mock.client "acc"
             Mock.filter7 mock_fetches_agree 2
             (Mock.start [inl (Mock.ok Mock.fullPage);
                          inl (Mock.ok Mock.shortPage)])).
  reflexivity.
Defined.

(** ** The two retry policies together *)

Section PoliciesTogether.

Context {T MR FO : Type}.
Variable X : Externals T MR FO.

(** X17. The single unavailability retry is granted per invocation,
    not per call: when the retry that follows a 503 is answered by a
    429 with a readable [Retry-After], the re-invocation retries a 503
    of its own. With the answers 503, 429, 503 and then a 2xx status,
    the call returns the 2xx response after four transport attempts
    and two unavailability sleeps around the rate-limit sleep. *)
Theorem unavailability_retry_is_per_invocation fuel c method endpoint body
    (w w0 w1 w2 w3 w4 w5 : World T) request request' r1 r2 r3 r4 seconds :
  newRequest X c method endpoint body w = (inl request, w0) ->
  clientDo X request w0 = (inl r1, w1) ->
  http.StatusCode r1 = 503 ->
  clientDo X request (Sleep time.Second w1) = (inl r2, w2) ->
  http.StatusCode r2 = 429 ->
  Atoi X (http.Get (http.RespHeader r2) "Retry-After") = inl seconds ->
  newRequest X c method endpoint body
    (Sleep (wrap64 (seconds * time.Second)) w2) = (inl request', w3) ->
  clientDo X request' w3 = (inl r3, w4) ->
  http.StatusCode r3 = 503 ->
  clientDo X request' (Sleep time.Second w4) = (inl r4, w5) ->
  200 <= http.StatusCode r4 <= 299 ->
  doRequest X (S (S fuel)) c method endpoint body w = (Ret (inl r4), w5)
  /\ trace w5 =
       trace w ++ [CallNewRequest method (apiURL X (Region c) endpoint) body;
                   CallDo request; CallSleep 1000000000; CallDo request;
                   CallSleep (wrap64 (seconds * 1000000000));
                   CallNewRequest method (apiURL X (Region c) endpoint) body;
                   CallDo request'; CallSleep 1000000000; CallDo request'].
Proof.
  intros Hnew Hdo1 H1 Hdo2 H2 Hatoi Hnew' Hdo3 H3 Hdo4 H4. split.
  - rewrite (doRequest_retried X _ c method endpoint body w w0 w1 w2
               request r1 r2 Hnew Hdo1 H1 Hdo2).
    rewrite H2, Hatoi. cbn [Z.eqb Pos.eqb].
    rewrite (doRequest_retried X _ c method endpoint body _ w3 w4 w5
               request' r3 r4 Hnew' Hdo3 H3 Hdo4).
    destruct (in_2xx_checks _ H4) as [-> ->]. reflexivity.
  - rewrite (clientDo_trace X _ _ _ _ Hdo4), Sleep_trace.
    rewrite (clientDo_trace X _ _ _ _ Hdo3).
    rewrite (newRequest_trace X _ _ _ _ _ _ _ Hnew'), Sleep_trace.
    rewrite (clientDo_trace X _ _ _ _ Hdo2), Sleep_trace.
    rewrite (clientDo_trace X _ _ _ _ Hdo1).
    rewrite (newRequest_trace X _ _ _ _ _ _ _ Hnew).
    rewrite <- !app_assoc. reflexivity.
Qed.

End PoliciesTogether.

(** The answers 503, 429 with [Retry-After: 0], 503, 200. *)
Lemma unavailability_retry_is_per_invocation_witness :
  exists w5,
    doRequest (Mock.externals false) 2 Mock.client "GET" "/x" None
      (Mock.start [Mock.statusOnly 503; inl (Mock.response 429 "0" "");
                   Mock.statusOnly 503; inl (Mock.ok "")])
    = (Ret (inl (Mock.ok "")), w5)
    /\ doer w5 = []
    /\ count isDo (trace w5) = 4%nat.
Proof.
  eexists.
  split; [|split];
    [ eapply (unavailability_retry_is_per_invocation (Mock.externals false) 0
                Mock.client "GET" "/x" None);
      [ reflexivity | reflexivity | reflexivity | reflexivity | reflexivity
      | reflexivity | reflexivity | reflexivity | reflexivity | reflexivity
      | cbn; lia ]
    | reflexivity | reflexivity ].
Defined.
